(** * OAuth relay for a browser CMS: the request handlers of [handler.ts]

    A shallow embedding of [src/src/handler.ts] (the authorization
    initiator [handleAuth], the callback exchanger [handleCallback], the
    page renderer [outputHTML] and the router, here [route]) together with the
    parts of the JavaScript platform the handlers lean on: strings,
    [JSON.stringify], [URLSearchParams], [crypto.randomUUID] and the
    fragment of regular expressions the two patterns of the file need.

    Conventions.
    - A JavaScript string is a [string]; every character stands for one
      UTF-16 code unit below 256, which covers every literal of the file.
    - [undefined] and [null] are [None]; a JavaScript value read out of a
      JSON document is a [json].
    - [crypto.randomUUID] draws 128 bits; they are an explicit argument.
    - The outbound [fetch] is an explicit argument too: a function from the
      URL and the request body to what the network produced. *)

From Stdlib Require Import Strings.String Strings.Ascii Lists.List Bool.Bool.
From Stdlib Require Import Arith.Arith Arith.PeanoNat micromega.Lia NArith.NArith.
Import ListNotations.

Open Scope list_scope.
Open Scope string_scope.

#[local] Set Warnings "-register-all".

(* ================================================================= *)
(** ** Characters and strings *)

Module Chars.

Definition dquote : ascii := "034"%char.
Definition newline : ascii := "010"%char.
Definition backslash : ascii := "\"%char.

Definition code (c : ascii) : nat := nat_of_ascii c.

Definition between (lo hi c : ascii) : bool :=
  Nat.leb (code lo) (code c) && Nat.leb (code c) (code hi).

Definition isDigit (c : ascii) : bool := between "0" "9" c.
Definition isLower (c : ascii) : bool := between "a" "z" c.
Definition isUpper (c : ascii) : bool := between "A" "Z" c.
Definition isAlnum (c : ascii) : bool := isDigit c || isLower c || isUpper c.

(** [\w] of a regular expression without the [u] and [i] flags. *)
Definition isWord (c : ascii) : bool := isAlnum c || Ascii.eqb c "_".

(** [[0-9a-f]]. *)
Definition isLowerHex (c : ascii) : bool := isDigit c || between "a" "f" c.

(** [[a-z-]]. *)
Definition isLowerOrHyphen (c : ascii) : bool := isLower c || Ascii.eqb c "-".

(** LineTerminator: LF and CR (U+2028 and U+2029 lie above 255). *)
Definition isLineTerminator (c : ascii) : bool :=
  Ascii.eqb c "010" || Ascii.eqb c "013".

(** WhiteSpace and LineTerminator below 256: TAB, LF, VT, FF, CR, SP, NBSP. *)
Definition isWhiteSpace (c : ascii) : bool :=
  between "009" "013" c || Ascii.eqb c " " || Ascii.eqb c "160".

(** SyntaxCharacter of the regular expression grammar, which is also the
    class [[.*+?^${}()|[\]\\]] of [escapeRegExp]. *)
Definition isSyntaxChar (c : ascii) : bool :=
  existsb (Ascii.eqb c)
    ["."; "*"; "+"; "?"; "^"; "$"; "{"; "}"; "("; ")"; "|"; "["; "]"; "\"]%char.

Definition hexLower (n : nat) : ascii :=
  nth n ["0"; "1"; "2"; "3"; "4"; "5"; "6"; "7"; "8"; "9";
         "a"; "b"; "c"; "d"; "e"; "f"]%char "0"%char.

Definition hexUpper (n : nat) : ascii :=
  nth n ["0"; "1"; "2"; "3"; "4"; "5"; "6"; "7"; "8"; "9";
         "A"; "B"; "C"; "D"; "E"; "F"]%char "0"%char.

End Chars.
Import Chars.

Module Str.

Definition char (c : ascii) : string := String c EmptyString.

Definition isEmpty (s : string) : bool :=
  match s with EmptyString => true | _ => false end.

Fixpoint all (p : ascii -> bool) (s : string) : bool :=
  match s with
  | EmptyString => true
  | String c r => p c && all p r
  end.

Fixpoint drop (n : nat) (s : string) : string :=
  match n, s with
  | S m, String _ r => drop m r
  | _, _ => s
  end.

(** [s.startsWith(p)]. *)
Fixpoint startsWith (p s : string) : bool :=
  match p, s with
  | EmptyString, _ => true
  | String a p', String b s' => Ascii.eqb a b && startsWith p' s'
  | String _ _, EmptyString => false
  end.

Fixpoint join (sep : string) (l : list string) : string :=
  match l with
  | [] => ""
  | [x] => x
  | x :: r => x ++ sep ++ join sep r
  end.

(** [needle] occurs somewhere in [s] ([String.prototype.includes]). *)
Fixpoint contains (needle s : string) : bool :=
  startsWith needle s ||
  match s with
  | EmptyString => false
  | String _ r => contains needle r
  end.

(** [String.prototype.trimStart] and [trimEnd]. *)
Fixpoint trimStart (s : string) : string :=
  match s with
  | String c r => if isWhiteSpace c then trimStart r else s
  | EmptyString => EmptyString
  end.

Fixpoint trimEnd (s : string) : string :=
  match s with
  | EmptyString => EmptyString
  | String c r =>
      let r' := trimEnd r in
      if isWhiteSpace c && isEmpty r' then EmptyString else String c r'
  end.

(** [String.prototype.trim]. *)
Definition trim (s : string) : string := trimEnd (trimStart s).

(** [s.split(/c/)] for a one-character separator. *)
Fixpoint split (sep : ascii) (s : string) : list string :=
  match s with
  | EmptyString => [EmptyString]
  | String c r =>
      if Ascii.eqb c sep then EmptyString :: split sep r
      else match split sep r with
           | h :: t => String c h :: t
           | [] => [char c]
           end
  end.

(** [s.replace(pat, rep)] for a string pattern: the first occurrence
    only.  [rep] holds no [$], so it is inserted as it is. *)
Fixpoint replaceFirst (pat rep s : string) : string :=
  if startsWith pat s then rep ++ drop (String.length pat) s
  else match s with
       | EmptyString => EmptyString
       | String c r => String c (replaceFirst pat rep r)
       end.

(** [s.replaceAll(c, rep)] for a one-character pattern. *)
Fixpoint replaceAllChar (c : ascii) (rep s : string) : string :=
  match s with
  | EmptyString => EmptyString
  | String d r =>
      if Ascii.eqb d c then rep ++ replaceAllChar c rep r
      else String d (replaceAllChar c rep r)
  end.

Fixpoint ofList (l : list ascii) : string :=
  match l with
  | [] => EmptyString
  | c :: r => String c (ofList r)
  end.

End Str.

(** The falsy strings of JavaScript are [undefined], [null] and [""]. *)
Definition truthyStr (s : option string) : bool :=
  match s with
  | Some (String _ _) => true
  | _ => false
  end.

(** [s ?? d]. *)
Definition orElse (s : option string) (d : string) : string :=
  match s with Some x => x | None => d end.

(* ================================================================= *)
(** ** JSON values and [JSON.stringify] *)

Module Json.

(** A value produced by [JSON.parse].  [JNum] holds the text that
    JavaScript prints for the number (["0"] for both zeros); [JObj] holds
    the own properties in enumeration order, with distinct keys. *)
Inductive json : Type :=
| JNull
| JBool (b : bool)
| JNum (text : string)
| JStr (s : string)
| JArr (items : list json)
| JObj (props : list (string * json)).

Definition hex4 (n : nat) : string :=
  Str.ofList [hexLower (n / 4096 mod 16); hexLower (n / 256 mod 16);
              hexLower (n / 16 mod 16); hexLower (n mod 16)].

(** One code unit inside QuoteJSONString. *)
Definition quoteChar (c : ascii) : string :=
  if Ascii.eqb c dquote then String backslash (Str.char dquote)
  else if Ascii.eqb c backslash then String backslash (Str.char backslash)
  else if Ascii.eqb c "008" then "\b"
  else if Ascii.eqb c "012" then "\f"
  else if Ascii.eqb c "010" then "\n"
  else if Ascii.eqb c "013" then "\r"
  else if Ascii.eqb c "009" then "\t"
  else if Nat.ltb (code c) 32 then "\u" ++ hex4 (code c)
  else Str.char c.

Fixpoint quoteBody (s : string) : string :=
  match s with
  | EmptyString => EmptyString
  | String c r => quoteChar c ++ quoteBody r
  end.

(** QuoteJSONString. *)
Definition quote (s : string) : string :=
  String dquote (quoteBody s ++ Str.char dquote).

(** [JSON.stringify] without indentation. *)
Fixpoint stringify (j : json) : string :=
  match j with
  | JNull => "null"
  | JBool true => "true"
  | JBool false => "false"
  | JNum t => t
  | JStr s => quote s
  | JArr l => "[" ++ Str.join "," (map stringify l) ++ "]"
  | JObj l =>
      "{" ++ Str.join "," (map (fun kv => quote (fst kv) ++ ":" ++ stringify (snd kv)) l)
          ++ "}"
  end.

(** ToBoolean on a value that came out of a JSON document. *)
Definition truthy (j : json) : bool :=
  match j with
  | JNull => false
  | JBool b => b
  | JNum t => negb (String.eqb t "0")
  | JStr s => negb (Str.isEmpty s)
  | JArr _ | JObj _ => true
  end.

Fixpoint assoc (k : string) (l : list (string * json)) : option json :=
  match l with
  | [] => None
  | (k', v) :: r => if String.eqb k k' then Some v else assoc k r
  end.

(** [data.k].  The outer [None] is the TypeError of reading a property
    of [null]; the inner [None] is [undefined].  None of the two keys
    the handler reads is a property of a string, a number, a boolean or
    an array. *)
Definition getProp (data : json) (k : string) : option (option json) :=
  match data with
  | JNull => None
  | JObj props => Some (assoc k props)
  | _ => Some None
  end.

(** [v ?? d] on a property that was read. *)
Definition coalesce (v : option json) (d : json) : json :=
  match v with
  | None | Some JNull => d
  | Some x => x
  end.

(** An object literal whose fields may be [undefined]: [JSON.stringify]
    leaves those out. *)
Fixpoint defined (fields : list (string * option json)) : list (string * json) :=
  match fields with
  | [] => []
  | (k, Some v) :: r => (k, v) :: defined r
  | (_, None) :: r => defined r
  end.

Definition literal (fields : list (string * option json)) : json :=
  JObj (defined fields).

End Json.
Import Json.

(* ================================================================= *)
(** ** The fragment of regular expressions the handlers use

    Neither pattern of the file carries a flag, so matching is case
    sensitive, [.] stops at line terminators and [^] and [$] anchor at the
    ends of the input only.  The matcher is written in continuation
    style, as the language standard does: a quantifier tries its
    alternatives in order (longest first when greedy, shortest first when
    lazy) and keeps the first one the rest of the pattern accepts. *)

Module Regex.

Inductive cset : Type :=
| CChar (c : ascii)                       (* one literal character *)
| CDot                                    (* [.] *)
| CClass (ranges : list (ascii * ascii)). (* [[a-bc-d]] *)

Definition mem (cs : cset) (c : ascii) : bool :=
  match cs with
  | CChar d => Ascii.eqb c d
  | CDot => negb (isLineTerminator c)
  | CClass rs => existsb (fun r => between (fst r) (snd r) c) rs
  end.

Inductive quant : Type :=
| One                 (* no quantifier *)
| Plus                (* [+] *)
| PlusLazy            (* [+?] *)
| Times (n : nat).    (* [{n}] *)

Inductive node : Type :=
| Atom (cs : cset) (q : quant)
| WordBoundary        (* [\b] *)
| Bol                 (* [^] *)
| Eol                 (* [$] *)
| Open                (* [(] of a capturing group *)
| Close.              (* [)] *)

(** The groups closed so far, in order, and the text the open group has
    consumed. *)
Record caps : Type := { closed : list string; opened : option string }.

Definition noCaps : caps := {| closed := []; opened := None |}.

Definition consume (c : ascii) (cp : caps) : caps :=
  {| closed := closed cp;
     opened := option_map (fun t => t ++ Str.char c) (opened cp) |}.

(** A continuation sees the character before the position, the rest of
    the input and the captures. *)
Definition cont : Type := option ascii -> string -> caps -> option (list string).

Definition one (cs : cset) (k : cont) : cont :=
  fun prev s cp =>
    match s with
    | String c r => if mem cs c then k (Some c) r (consume c cp) else None
    | EmptyString => None
    end.

Fixpoint star (cs : cset) (k : cont) (prev : option ascii) (s : string) (cp : caps)
  : option (list string) :=
  match s with
  | String c r =>
      if mem cs c then
        match star cs k (Some c) r (consume c cp) with
        | Some x => Some x
        | None => k prev s cp
        end
      else k prev s cp
  | EmptyString => k prev s cp
  end.

Fixpoint starLazy (cs : cset) (k : cont) (prev : option ascii) (s : string) (cp : caps)
  : option (list string) :=
  match k prev s cp with
  | Some x => Some x
  | None =>
      match s with
      | String c r => if mem cs c then starLazy cs k (Some c) r (consume c cp) else None
      | EmptyString => None
      end
  end.

Fixpoint times (n : nat) (cs : cset) (k : cont) : cont :=
  match n with
  | O => k
  | S m => one cs (times m cs k)
  end.

Definition isWordAt (c : option ascii) : bool :=
  match c with Some x => isWord x | None => false end.

Definition next (s : string) : option ascii :=
  match s with String c _ => Some c | EmptyString => None end.

Definition step (n : node) (k : cont) : cont :=
  match n with
  | Atom cs One => one cs k
  | Atom cs Plus => one cs (star cs k)
  | Atom cs PlusLazy => one cs (starLazy cs k)
  | Atom cs (Times m) => times m cs k
  | WordBoundary =>
      fun prev s cp => if xorb (isWordAt prev) (isWordAt (next s)) then k prev s cp else None
  | Bol => fun prev s cp => match prev with None => k prev s cp | Some _ => None end
  | Eol => fun prev s cp => match s with EmptyString => k prev s cp | _ => None end
  | Open => fun prev s cp => k prev s {| closed := closed cp; opened := Some "" |}
  | Close =>
      fun prev s cp =>
        k prev s {| closed := closed cp ++ [orElse (opened cp) ""]; opened := None |}
  end.

Definition accept : cont := fun _ _ cp => Some (closed cp).

Definition matcher (ns : list node) : cont := fold_right step accept ns.

(** The leftmost start position that matches wins. *)
Fixpoint scan (k : cont) (prev : option ascii) (s : string) : option (list string) :=
  match k prev s noCaps with
  | Some x => Some x
  | None =>
      match s with
      | String c r => scan k (Some c) r
      | EmptyString => None
      end
  end.

(** [input.match(re)] for a pattern without the [g] flag: [None] is
    [null]; [Some groups] is the result array without its element 0, that
    is the captured groups, so that [nth_error groups 0] is [m[1]]. *)
Definition exec (ns : list node) (input : string) : option (list string) :=
  scan (matcher ns) None input.

Fixpoint lit (s : string) : list node :=
  match s with
  | EmptyString => []
  | String c r => Atom (CChar c) One :: lit r
  end.

(** *** Reading a pattern: [new RegExp(source)]

    The fragment has literal characters, escaped syntax characters, [.],
    [^], [$] and the quantifiers [+] and [+?].  Anything else is outside
    the fragment and reads as [None]. *)

Inductive token : Type :=
| TAtom (cs : cset)
| TPlus
| TQuest
| TBol
| TEol
| TOther.

Definition tokenOf (c : ascii) : token :=
  if Ascii.eqb c "^" then TBol
  else if Ascii.eqb c "$" then TEol
  else if Ascii.eqb c "." then TAtom CDot
  else if Ascii.eqb c "+" then TPlus
  else if Ascii.eqb c "?" then TQuest
  else if isSyntaxChar c then TOther
  else TAtom (CChar c).

Fixpoint lex (p : string) : list token :=
  match p with
  | EmptyString => []
  | String c r =>
      if Ascii.eqb c backslash then
        match r with
        | String d r' => (if isSyntaxChar d then TAtom (CChar d) else TOther) :: lex r'
        | EmptyString => [TOther]
        end
      else tokenOf c :: lex r
  end.

Fixpoint parse (ts : list token) : option (list node) :=
  match ts with
  | [] => Some []
  | TAtom cs :: TPlus :: TQuest :: r => option_map (cons (Atom cs PlusLazy)) (parse r)
  | TAtom cs :: TPlus :: r => option_map (cons (Atom cs Plus)) (parse r)
  | TAtom cs :: r => option_map (cons (Atom cs One)) (parse r)
  | TBol :: r => option_map (cons Bol) (parse r)
  | TEol :: r => option_map (cons Eol) (parse r)
  | _ => None
  end.

Definition RegExp (source : string) : option (list node) := parse (lex source).

End Regex.

(* ================================================================= *)
(** ** [URLSearchParams] and [crypto.randomUUID] *)

Module Platform.

Definition percent (n : nat) : string :=
  String "%" (String (hexUpper (n / 16)) (Str.char (hexUpper (n mod 16)))).

(** The application/x-www-form-urlencoded serializer on one code unit:
    letters, digits and [*-._] stay, a space becomes [+], the rest is
    the percent-encoding of its UTF-8 bytes. *)
Definition formEncodeChar (c : ascii) : string :=
  if isAlnum c || existsb (Ascii.eqb c) ["*"; "-"; "."; "_"]%char then Str.char c
  else if Ascii.eqb c " " then "+"
  else if Nat.ltb (code c) 128 then percent (code c)
  else percent (192 + code c / 64) ++ percent (128 + code c mod 64).

Fixpoint formEncode (s : string) : string :=
  match s with
  | EmptyString => EmptyString
  | String c r => formEncodeChar c ++ formEncode r
  end.

(** [new URLSearchParams(record).toString()]. *)
Definition searchParamsToString (l : list (string * string)) : string :=
  Str.join "&" (map (fun kv => formEncode (fst kv) ++ "=" ++ formEncode (snd kv)) l).

(** [searchParams.get(name)]: the first value of that name. *)
Fixpoint searchParamsGet (name : string) (l : list (string * string)) : option string :=
  match l with
  | [] => None
  | (k, v) :: r => if String.eqb k name then Some v else searchParamsGet name r
  end.

(** The [i]-th hexadecimal digit (0 is the leftmost) of a version 4
    UUID drawn from the 128 bits [rnd]: digit 12 is the version, the two
    high bits of digit 16 are the variant. *)
Definition uuidNibble (rnd : N) (i : nat) : nat :=
  let raw := N.to_nat ((rnd / 16 ^ N.of_nat (31 - i)) mod 16)%N in
  if Nat.eqb i 12 then 4
  else if Nat.eqb i 16 then 8 + raw mod 4
  else raw.

Definition uuidDigits (rnd : N) (start len : nat) : string :=
  Str.ofList (map (fun i => hexLower (uuidNibble rnd i)) (seq start len)).

(** [crypto.randomUUID()]: 8-4-4-4-12 lowercase hexadecimal digits. *)
Definition randomUUID (rnd : N) : string :=
  uuidDigits rnd 0 8 ++ "-" ++ uuidDigits rnd 8 4 ++ "-" ++ uuidDigits rnd 12 4
    ++ "-" ++ uuidDigits rnd 16 4 ++ "-" ++ uuidDigits rnd 20 12.

End Platform.
Import Platform.

(* ================================================================= *)
(** ** The handlers of [handler.ts] *)

(** [type Provider = 'github' | 'gitlab' | 'bitbucket' | 'unknown']. *)
Inductive Provider : Type := github | gitlab | bitbucket | unknown.

Definition providerName (p : Provider) : string :=
  match p with
  | github => "github"
  | gitlab => "gitlab"
  | bitbucket => "bitbucket"
  | unknown => "unknown"
  end.

(** [OutputHTMLOptions].  [token] and [error] are declared as strings; on
    the last line of [handleCallback] they hold whatever the token
    endpoint sent under those keys, hence [json]. *)
Record OutputHTMLOptions : Type := {
  provider : option Provider;
  token : option json;
  error : option json;
  errorCode : option string
}.

(** The variables of [EnvType] the handlers read, and the Bitbucket ones
    they do not read. *)
Record CloudflareEnv : Type := {
  ALLOWED_DOMAINS : option string;
  GITHUB_CLIENT_ID : option string;
  GITHUB_CLIENT_SECRET : option string;
  GITHUB_HOSTNAME : option string;
  GITLAB_CLIENT_ID : option string;
  GITLAB_CLIENT_SECRET : option string;
  GITLAB_HOSTNAME : option string;
  BITBUCKET_CLIENT_ID : option string;
  BITBUCKET_CLIENT_SECRET : option string;
  BITBUCKET_HOSTNAME : option string;
  INSECURE_COOKIES : option string
}.

(** A request after [new URL(url)]: the origin, the path, the decoded
    query pairs, and [headers.get('Cookie')]. *)
Record Request : Type := {
  method : string;
  origin : string;
  pathname : string;
  searchParams : list (string * string);
  cookieHeader : option string
}.

Record Response : Type := {
  status : nat;
  headers : list (string * string);
  body : string
}.

(** What the token endpoint produced: no response at all ([fetch]
    rejected), a body that [response.json()] rejects, or a JSON value. *)
Inductive Fetched : Type :=
| NoResponse
| Unparseable
| Parsed (data : json).

(** The outbound call: URL and request body to outcome. *)
Definition Fetch : Type := string -> string -> Fetched.

(** A handler returns a response or throws. *)
Inductive Completion : Type :=
| Returned (r : Response)
| Thrown.

(** *** [new Response(body, init)]

    The constructor strips HTTP white space (TAB, LF, CR, SP) from both
    ends of every header value and throws a [TypeError] when what is left
    holds NUL, LF or CR.  For a string body it adds
    [Content-Type: text/plain;charset=UTF-8] unless the headers name a
    content type already.  The header names of the file are constants
    and valid. *)

Definition isHttpWhitespace (c : ascii) : bool :=
  Ascii.eqb c "009" || Ascii.eqb c "010" || Ascii.eqb c "013" || Ascii.eqb c " ".

Fixpoint stripStart (ws : ascii -> bool) (s : string) : string :=
  match s with
  | String c r => if ws c then stripStart ws r else s
  | EmptyString => EmptyString
  end.

Fixpoint stripEnd (ws : ascii -> bool) (s : string) : string :=
  match s with
  | EmptyString => EmptyString
  | String c r =>
      let r' := stripEnd ws r in
      if ws c && Str.isEmpty r' then EmptyString else String c r'
  end.

Definition normalizeHeaderValue (v : string) : string :=
  stripEnd isHttpWhitespace (stripStart isHttpWhitespace v).

(** A character a header value may hold: any but NUL, LF and CR. *)
Definition headerSafe (c : ascii) : bool :=
  negb (Ascii.eqb c "000" || Ascii.eqb c "010" || Ascii.eqb c "013").

Definition validHeaderValue (v : string) : bool :=
  Str.all headerSafe (normalizeHeaderValue v).

Definition lowerChar (c : ascii) : ascii :=
  if isUpper c then ascii_of_nat (code c + 32) else c.

Fixpoint lowerCase (s : string) : string :=
  match s with
  | EmptyString => EmptyString
  | String c r => String (lowerChar c) (lowerCase r)
  end.

(** Header names compare without regard to case. *)
Definition hasHeader (name : string) (l : list (string * string)) : bool :=
  existsb (fun kv => String.eqb (lowerCase (fst kv)) (lowerCase name)) l.

Definition newResponse (body : string) (status : nat) (init : list (string * string))
  : Completion :=
  if forallb (fun kv => validHeaderValue (snd kv)) init then
    Returned
      {| status := status;
         headers :=
           (map (fun kv => (fst kv, normalizeHeaderValue (snd kv))) init
            ++ (if hasHeader "Content-Type" init then []
                else [("Content-Type", "text/plain;charset=UTF-8")]))%list;
         body := body |}
  else Thrown.

Definition supportedProviders : list string := ["github"; "gitlab"; "bitbucket"].

Definition includes (l : list string) (s : string) : bool := existsb (String.eqb s) l.

(** [supportedProviders.includes(p ?? '') ? (p as Provider) : 'unknown']. *)
Definition asProvider (p : option string) : Provider :=
  let s := orElse p "" in
  if includes supportedProviders s then
    if String.eqb s "github" then github
    else if String.eqb s "gitlab" then gitlab
    else bitbucket
  else unknown.

(** [str.replace(/[.*+?^${}()|[\]\\]/g, '\\$&')]: a backslash before every
    syntax character. *)
Fixpoint escapeRegExp (str : string) : string :=
  match str with
  | EmptyString => EmptyString
  | String c r =>
      if isSyntaxChar c then String backslash (String c (escapeRegExp r))
      else String c (escapeRegExp r)
  end.

Definition truthyJson (v : option json) : bool :=
  match v with Some j => Json.truthy j | None => false end.

Definition nl : string := Str.char newline.

(** The document of [outputHTML] around its three interpolations. *)
Definition page (provider state content : string) : string :=
  nl ++
  "      <!doctype html><html><body><script>" ++ nl ++
  "        (() => {" ++ nl ++
  "          window.addEventListener('message', ({ data, origin }) => {" ++ nl ++
  "            if (data === 'authorizing:" ++ provider ++ "') {" ++ nl ++
  "              window.opener?.postMessage(" ++ nl ++
  "                'authorization:" ++ provider ++ ":" ++ state ++ ":" ++ content ++ "'," ++ nl ++
  "                origin" ++ nl ++
  "              );" ++ nl ++
  "            }" ++ nl ++
  "          });" ++ nl ++
  "          window.opener?.postMessage('authorizing:" ++ provider ++ "', '*');" ++ nl ++
  "        })();" ++ nl ++
  "      </script></body></html>" ++ nl ++
  "    ".

(** [const content = error ? { provider, error, errorCode } : { provider, token }]. *)
Definition contentOf (p : Provider) (o : OutputHTMLOptions) : json :=
  if truthyJson (error o) then
    Json.literal [("provider", Some (JStr (providerName p)));
                  ("error", error o);
                  ("errorCode", option_map JStr (errorCode o))]
  else
    Json.literal [("provider", Some (JStr (providerName p))); ("token", token o)].

Definition insecureCookies (env : option CloudflareEnv) : bool :=
  match env with
  | Some e => match INSECURE_COOKIES e with
              | Some v => String.eqb v "1"
              | None => false
              end
  | None => false
  end.

Definition secureAttr (env : option CloudflareEnv) : string :=
  if insecureCookies env then "" else "; Secure".

Definition outputHTML (o : OutputHTMLOptions) (env : option CloudflareEnv) : Response :=
  let p := match provider o with Some p => p | None => unknown end in
  let state := if truthyJson (error o) then "error" else "success" in
  let content := contentOf p o in
  {| status := 200;
     headers :=
       [("Content-Type", "text/html;charset=UTF-8");
        ("Set-Cookie",
         "csrf-token=deleted; HttpOnly; Max-Age=0; Path=/; SameSite=Lax" ++ secureAttr env)];
     body := page (providerName p) state (Json.stringify content) |}.

(** An error page, as every early [return outputHTML({...}, env)] builds it. *)
Definition errorPage (p : option Provider) (message code : string) (env : CloudflareEnv)
  : Response :=
  outputHTML {| provider := p; token := None; error := Some (JStr message);
                errorCode := Some code |} (Some env).

(** Early [return] inside a handler. *)
Inductive flow (A : Type) : Type :=
| Return (r : Response)
| Continue (a : A).
Arguments Return {A} r.
Arguments Continue {A} a.

Definition bind {A B : Type} (m : flow A) (k : A -> flow B) : flow B :=
  match m with
  | Return r => Return r
  | Continue a => k a
  end.

Definition finish (m : flow Response) : Response :=
  match m with
  | Return r => r
  | Continue r => r
  end.

(** The same for a handler whose last step may throw. *)
Definition complete (m : flow Completion) : Completion :=
  match m with
  | Return r => Returned r
  | Continue c => c
  end.

Notation "x <- m ;; k" := (bind m (fun x => k))
  (at level 61, m at next level, right associativity).
Notation "'guard' c 'orReturn' r ;; k" := (if c then k else Return r)
  (at level 61, c at next level, r at next level, right associativity).

(** [new RegExp(`^${escapeRegExp(str.trim()).replace('\\*', '.+')}$`)]. *)
Definition domainPattern (str : string) : string :=
  "^" ++ Str.replaceFirst "\*" ".+" (escapeRegExp (Str.trim str)) ++ "$".

(** [(domain ?? '').match(new RegExp(...))], as a boolean.  The pattern
    always lies in the fragment [Regex.RegExp] reads (lemma
    [domainPattern_reads]), so the [None] branch is never taken. *)
Definition domainMatches (domain : option string) (str : string) : bool :=
  match Regex.RegExp (domainPattern str) with
  | Some re => match Regex.exec re (orElse domain "") with Some _ => true | None => false end
  | None => false
  end.

(** [ALLOWED_DOMAINS && !ALLOWED_DOMAINS.split(/,/).some(...)]. *)
Definition domainRejected (allowed domain : option string) : bool :=
  truthyStr allowed &&
  negb (existsb (domainMatches domain) (Str.split "," (orElse allowed ""))).

Definition issuedCookie (cookieProvider csrfToken : string) : string :=
  "csrf-token=" ++ cookieProvider ++ "_" ++ csrfToken ++ "; " ++
  "HttpOnly; Path=/; Max-Age=600; SameSite=Lax; Secure".

Definition handleAuth (rnd : N) (request : Request) (env : CloudflareEnv) : Completion :=
  let provider := searchParamsGet "provider" (searchParams request) in
  let domain := searchParamsGet "site_id" (searchParams request) in
  let reqProvider := asProvider provider in
  complete (
    guard (truthyStr provider && includes supportedProviders (orElse provider ""))
      orReturn (errorPage None "Your Git backend is not supported by the authenticator."
                  "UNSUPPORTED_BACKEND" env) ;;
    let provider := orElse provider "" in
    (* Check if the domain is whitelisted *)
    guard (negb (domainRejected (ALLOWED_DOMAINS env) domain))
      orReturn (errorPage (Some reqProvider)
                  "Your domain is not allowed to use the authenticator."
                  "UNSUPPORTED_DOMAIN" env) ;;
    (* Generate a random string for CSRF protection *)
    let csrfToken := Str.replaceAllChar "-" "" (randomUUID rnd) in
    let cookieProvider :=
      if includes supportedProviders provider then provider else "unknown" in
    let authURL := "" in
    (* GitHub *)
    authURL <-
      (if String.eqb provider "github" then
         guard (truthyStr (GITHUB_CLIENT_ID env) && truthyStr (GITHUB_CLIENT_SECRET env))
           orReturn (errorPage (Some reqProvider)
                       "OAuth app client ID or secret is not configured."
                       "MISCONFIGURED_CLIENT" env) ;;
         let params := searchParamsToString
                         [("client_id", orElse (GITHUB_CLIENT_ID env) "");
                          ("scope", "repo,user");
                          ("state", csrfToken)] in
         Continue ("https://" ++ orElse (GITHUB_HOSTNAME env) "github.com"
                     ++ "/login/oauth/authorize?" ++ params)
       else Continue authURL) ;;
    (* GitLab *)
    authURL <-
      (if String.eqb provider "gitlab" then
         guard (truthyStr (GITLAB_CLIENT_ID env) && truthyStr (GITLAB_CLIENT_SECRET env))
           orReturn (errorPage (Some reqProvider)
                       "OAuth app client ID or secret is not configured."
                       "MISCONFIGURED_CLIENT" env) ;;
         let params := searchParamsToString
                         [("client_id", orElse (GITLAB_CLIENT_ID env) "");
                          ("redirect_uri", origin request ++ "/callback");
                          ("response_type", "code");
                          ("scope", "api");
                          ("state", csrfToken)] in
         Continue ("https://" ++ orElse (GITLAB_HOSTNAME env) "gitlab.com"
                     ++ "/oauth/authorize?" ++ params)
       else Continue authURL) ;;
    (* bitbucket *)
    guard (negb (String.eqb provider "bitbucket"))
      orReturn (errorPage (Some reqProvider) "Bitbucket OAuth is not yet supported."
                  "UNSUPPORTED_BACKEND" env) ;;
    (* Redirect to the authorization server *)
    Continue (newResponse "" 302
                [("Location", authURL);
                 ("Set-Cookie", issuedCookie cookieProvider csrfToken)])).

(** [/\bcsrf-token=([a-z-]+?)_([0-9a-f]{32})\b/]. *)
Definition csrfCookiePattern : list Regex.node :=
  [Regex.WordBoundary] ++ Regex.lit "csrf-token=" ++
  [Regex.Open; Regex.Atom (Regex.CClass [("a", "z"); ("-", "-")]%char) Regex.PlusLazy;
   Regex.Close;
   Regex.Atom (Regex.CChar "_") Regex.One;
   Regex.Open; Regex.Atom (Regex.CClass [("0", "9"); ("a", "f")]%char) (Regex.Times 32);
   Regex.Close;
   Regex.WordBoundary].

(** [headers.get('Cookie')?.match(...)]. *)
Definition cookieMatch (request : Request) : option (list string) :=
  match cookieHeader request with
  | Some h => Regex.exec csrfCookiePattern h
  | None => None
  end.

(** The second half of [handleCallback], from the reading of the
    credentials to the end: credentials, token request, rendering. *)
Definition exchangeToken (fetch : Fetch) (request : Request) (env : CloudflareEnv)
    (provider : string) (cookieProvider : Provider) (code : string) : Response :=
  finish (
    let tokenURL := "" in
    let requestBody := JObj [] in
    (* GitHub *)
    call <-
      (if String.eqb provider "github" then
         guard (truthyStr (GITHUB_CLIENT_ID env) && truthyStr (GITHUB_CLIENT_SECRET env))
           orReturn (errorPage (Some cookieProvider)
                       "OAuth app client ID or secret is not configured."
                       "MISCONFIGURED_CLIENT" env) ;;
         Continue ("https://" ++ orElse (GITHUB_HOSTNAME env) "github.com"
                     ++ "/login/oauth/access_token",
                   JObj [("code", JStr code);
                         ("client_id", JStr (orElse (GITHUB_CLIENT_ID env) ""));
                         ("client_secret", JStr (orElse (GITHUB_CLIENT_SECRET env) ""))])
       else Continue (tokenURL, requestBody)) ;;
    call <-
      (if String.eqb provider "gitlab" then
         guard (truthyStr (GITLAB_CLIENT_ID env) && truthyStr (GITLAB_CLIENT_SECRET env))
           orReturn (errorPage (Some cookieProvider)
                       "OAuth app client ID or secret is not configured."
                       "MISCONFIGURED_CLIENT" env) ;;
         Continue ("https://" ++ orElse (GITLAB_HOSTNAME env) "gitlab.com" ++ "/oauth/token",
                   JObj [("code", JStr code);
                         ("client_id", JStr (orElse (GITLAB_CLIENT_ID env) ""));
                         ("client_secret", JStr (orElse (GITLAB_CLIENT_SECRET env) ""));
                         ("grant_type", JStr "authorization_code");
                         ("redirect_uri", JStr (origin request ++ "/callback"))])
       else Continue call) ;;
    guard (negb (String.eqb provider "bitbucket"))
      orReturn (errorPage (Some cookieProvider) "Bitbucket OAuth is not yet supported."
                  "UNSUPPORTED_BACKEND" env) ;;
    let malformed :=
      errorPage (Some cookieProvider)
        "Server responded with malformed data. Please try again later."
        "MALFORMED_RESPONSE" env in
    match fetch (fst call) (Json.stringify (snd call)) with
    | NoResponse =>
        Return (errorPage (Some cookieProvider)
                  "Failed to request an access token. Please try again later."
                  "TOKEN_REQUEST_FAILED" env)
    | Unparseable => Return malformed
    | Parsed data =>
        match Json.getProp data "access_token", Json.getProp data "error" with
        | Some access_token, Some err =>
            let token := Json.coalesce access_token (JStr "") in
            let error := Json.coalesce err (JStr "") in
            Continue (outputHTML {| provider := Some cookieProvider; token := Some token;
                                    error := Some error; errorCode := None |} (Some env))
        | _, _ => Return malformed
        end
    end).

Definition handleCallback (fetch : Fetch) (request : Request) (env : CloudflareEnv)
  : Response :=
  let code := searchParamsGet "code" (searchParams request) in
  let state := searchParamsGet "state" (searchParams request) in
  let cookieMatch := cookieMatch request in
  let provider := match cookieMatch with Some m => nth_error m 0 | None => None end in
  let csrfToken := match cookieMatch with Some m => nth_error m 1 | None => None end in
  let cookieProvider := asProvider provider in
  finish (
    guard (truthyStr provider && includes supportedProviders (orElse provider ""))
      orReturn (errorPage None "Your Git backend is not supported by the authenticator."
                  "UNSUPPORTED_BACKEND" env) ;;
    guard (truthyStr code && truthyStr state)
      orReturn (errorPage (Some cookieProvider)
                  "Failed to receive an authorization code. Please try again later."
                  "AUTH_CODE_REQUEST_FAILED" env) ;;
    guard (truthyStr csrfToken && String.eqb (orElse state "") (orElse csrfToken ""))
      orReturn (errorPage (Some cookieProvider)
                  "Potential CSRF attack detected. Authentication flow aborted."
                  "CSRF_DETECTED" env) ;;
    Continue (exchangeToken fetch request env (orElse provider "") cookieProvider
                (orElse code ""))).

(** The worker's [fetch(request, env)]: the router. *)
Definition route (rnd : N) (fetch : Fetch) (request : Request) (env : CloudflareEnv)
  : Completion :=
  if String.eqb (method request) "GET"
     && includes ["/auth"; "/oauth/authorize"; "/oauth/auth"] (pathname request)
  then handleAuth rnd request env
  else if String.eqb (method request) "GET"
          && includes ["/callback"; "/oauth/redirect"] (pathname request)
  then Returned (handleCallback fetch request env)
  else newResponse "" 404 [].

(** Observations on a response. *)
Definition header (name : string) (r : Response) : option string :=
  (fix go (l : list (string * string)) : option string :=
     match l with
     | [] => None
     | (k, v) :: t => if String.eqb k name then Some v else go t
     end) (headers r).

Definition embeds (needle : string) (r : Response) : bool := Str.contains needle (body r).

(** The same observations on what a handler did; a throw shows nothing. *)
Definition statusOf (c : Completion) : option nat :=
  match c with Returned r => Some (status r) | Thrown => None end.

Definition headerOf (name : string) (c : Completion) : option string :=
  match c with Returned r => header name r | Thrown => None end.

Definition bodyOf (c : Completion) : option string :=
  match c with Returned r => Some (body r) | Thrown => None end.

Definition shows (needle : string) (c : Completion) : bool :=
  match c with Returned r => embeds needle r | Thrown => false end.

(** The host name a redirect is built on. *)
Definition hostOf (env : CloudflareEnv) (p : string) : string :=
  if String.eqb p "github" then orElse (GITHUB_HOSTNAME env) "github.com"
  else orElse (GITLAB_HOSTNAME env) "gitlab.com".

(** The text of the [errorCode] field as an error page carries it: the key,
    a colon and the quoted code. *)
Definition errorCodeText (code : string) : string :=
  "errorCode" ++ Str.char dquote ++ ":" ++ Str.char dquote ++ code ++ Str.char dquote.

(* ================================================================= *)
(** ** Vocabulary of the statements *)

(** The entry cut at its first [*]: the text before and the text after. *)
Fixpoint splitAtStar (s : string) : option (string * string) :=
  match s with
  | EmptyString => None
  | String c r =>
      if Ascii.eqb c "*" then Some (EmptyString, r)
      else match splitAtStar r with
           | Some (a, b) => Some (String c a, b)
           | None => None
           end
  end.

Definition notLineTerminator (c : ascii) : bool := negb (isLineTerminator c).

(** What the allow-list check of [handleAuth] accepts: the entry is
    trimmed, then read literally, except that its first [*] stands for
    one or more characters none of which is a line terminator. *)
Definition wildcardMatch (entry domain : string) : Prop :=
  match splitAtStar (Str.trim entry) with
  | None => domain = Str.trim entry
  | Some (pre, post) =>
      exists mid, mid <> "" /\ Str.all notLineTerminator mid = true
                  /\ domain = pre ++ mid ++ post
  end.

(** The allow-list rule in the words of the specification: the entry is a
    literal string anchored at both ends, except that a single [*] stands
    for one or more characters. *)
Definition literalOrWildcard (entry domain : string) : Prop :=
  match splitAtStar entry with
  | None => domain = entry
  | Some (pre, post) => exists mid, mid <> "" /\ domain = pre ++ mid ++ post
  end.

(** The nodes [domainPattern] reads as, between [^] and [$]. *)
Definition entryNodes (e : string) : list Regex.node :=
  match splitAtStar e with
  | None => Regex.lit e
  | Some (pre, post) =>
      Regex.lit pre ++ [Regex.Atom Regex.CDot Regex.Plus] ++ Regex.lit post
  end.

(** The character before the position once [m] has been read; [prev] if
    [m] is empty. *)
Fixpoint lastOr (prev : option ascii) (m : string) : option ascii :=
  match m with
  | EmptyString => prev
  | String c r => lastOr (Some c) r
  end.

Definition lastChar (s : string) : option ascii := lastOr None s.

(** The captures once [m] has been read. *)
Fixpoint consumeAll (m : string) (cp : Regex.caps) : Regex.caps :=
  match m with
  | EmptyString => cp
  | String c r => consumeAll r (Regex.consume c cp)
  end.

(** [k] succeeds exactly on the inputs in [Q], whatever came before. *)
Definition decides (k : Regex.cont) (Q : string -> Prop) : Prop :=
  forall prev s cp, k prev s cp <> None <-> Q s.

(** The tokens of a literal text. *)
Fixpoint litTokens (s : string) : list Regex.token :=
  match s with
  | EmptyString => []
  | String c r => Regex.TAtom (Regex.CChar c) :: litTokens r
  end.

Definition headIs (t : Regex.token) (ts : list Regex.token) : Prop :=
  match ts, t with
  | Regex.TPlus :: _, Regex.TPlus => True
  | Regex.TQuest :: _, Regex.TQuest => True
  | _, _ => False
  end.

(** The shape the callback's pattern asks of a Cookie header: somewhere in
    it, at a word boundary, [csrf-token=], a non-empty run of lowercase
    letters and hyphens, an underscore, 32 lowercase hexadecimal digits,
    and a word boundary again. *)
Definition carriesCsrfCookie (h p t : string) : Prop :=
  exists pre post,
    h = pre ++ "csrf-token=" ++ p ++ "_" ++ t ++ post
    /\ Regex.isWordAt (lastChar pre) = false
    /\ p <> "" /\ Str.all isLowerOrHyphen p = true
    /\ String.length t = 32 /\ Str.all isLowerHex t = true
    /\ Regex.isWordAt (Regex.next post) = false.

(** The callback's pattern behind its two fixed parts, [\b] and the
    cookie name. *)
Definition afterName : Regex.cont :=
  fold_right Regex.step Regex.accept
    [Regex.Open; Regex.Atom (Regex.CClass [("a", "z"); ("-", "-")]%char) Regex.PlusLazy;
     Regex.Close;
     Regex.Atom (Regex.CChar "_") Regex.One;
     Regex.Open; Regex.Atom (Regex.CClass [("0", "9"); ("a", "f")]%char) (Regex.Times 32);
     Regex.Close;
     Regex.WordBoundary].

(** [cookieMatch?.[1]]: the provider segment of the cookie, if any. *)
Definition cookieProviderSegment (request : Request) : option string :=
  match cookieMatch request with Some m => nth_error m 0 | None => None end.

(** The token of [handleAuth]: the UUID without its hyphens. *)
Definition csrfTokenOf (rnd : N) : string := Str.replaceAllChar "-" "" (randomUUID rnd).

(** The page both handlers answer an unknown provider with. *)
Definition unsupportedBackendPage (env : CloudflareEnv) : Response :=
  errorPage None "Your Git backend is not supported by the authenticator."
    "UNSUPPORTED_BACKEND" env.

(** The cookie deletion header of [outputHTML]. *)
Definition deletionCookie (env : CloudflareEnv) : string :=
  "csrf-token=deleted; HttpOnly; Max-Age=0; Path=/; SameSite=Lax"
    ++ (if insecureCookies (Some env) then "" else "; Secure").

(** Sample configurations and requests. *)
Module Sample.

Definition env : CloudflareEnv :=
  {| ALLOWED_DOMAINS := Some "*.example.com";
     GITHUB_CLIENT_ID := Some "Iv1.0a1b2c";
     GITHUB_CLIENT_SECRET := Some "s3cret";
     GITHUB_HOSTNAME := None;
     GITLAB_CLIENT_ID := None;
     GITLAB_CLIENT_SECRET := None;
     GITLAB_HOSTNAME := None;
     BITBUCKET_CLIENT_ID := Some "bb-id";
     BITBUCKET_CLIENT_SECRET := Some "bb-secret";
     BITBUCKET_HOSTNAME := None;
     INSECURE_COOKIES := Some "0" |}.

Definition withAllowed (a : option string) (e : CloudflareEnv) : CloudflareEnv :=
  {| ALLOWED_DOMAINS := a;
     GITHUB_CLIENT_ID := GITHUB_CLIENT_ID e;
     GITHUB_CLIENT_SECRET := GITHUB_CLIENT_SECRET e;
     GITHUB_HOSTNAME := GITHUB_HOSTNAME e;
     GITLAB_CLIENT_ID := GITLAB_CLIENT_ID e;
     GITLAB_CLIENT_SECRET := GITLAB_CLIENT_SECRET e;
     GITLAB_HOSTNAME := GITLAB_HOSTNAME e;
     BITBUCKET_CLIENT_ID := BITBUCKET_CLIENT_ID e;
     BITBUCKET_CLIENT_SECRET := BITBUCKET_CLIENT_SECRET e;
     BITBUCKET_HOSTNAME := BITBUCKET_HOSTNAME e;
     INSECURE_COOKIES := INSECURE_COOKIES e |}.

Definition withInsecure (v : option string) (e : CloudflareEnv) : CloudflareEnv :=
  {| ALLOWED_DOMAINS := ALLOWED_DOMAINS e;
     GITHUB_CLIENT_ID := GITHUB_CLIENT_ID e;
     GITHUB_CLIENT_SECRET := GITHUB_CLIENT_SECRET e;
     GITHUB_HOSTNAME := GITHUB_HOSTNAME e;
     GITLAB_CLIENT_ID := GITLAB_CLIENT_ID e;
     GITLAB_CLIENT_SECRET := GITLAB_CLIENT_SECRET e;
     GITLAB_HOSTNAME := GITLAB_HOSTNAME e;
     BITBUCKET_CLIENT_ID := BITBUCKET_CLIENT_ID e;
     BITBUCKET_CLIENT_SECRET := BITBUCKET_CLIENT_SECRET e;
     BITBUCKET_HOSTNAME := BITBUCKET_HOSTNAME e;
     INSECURE_COOKIES := v |}.

(** [GET /auth?provider=..&site_id=..]. *)
Definition authRequest (p site : string) : Request :=
  {| method := "GET"; origin := "https://auth.example.com"; pathname := "/auth";
     searchParams := [("provider", p); ("site_id", site)];
     cookieHeader := None |}.

(** [GET /callback?..] with a Cookie header. *)
Definition callbackRequest (query : list (string * string)) (cookie : option string)
  : Request :=
  {| method := "GET"; origin := "https://auth.example.com"; pathname := "/callback";
     searchParams := query; cookieHeader := cookie |}.

Definition token : string := "0123456789abcdef0123456789abcdef".

Definition rnd : N := 12345678901234567890123456789%N.

(** A network that answers every request with the same outcome. *)
Definition answering (f : Fetched) : Fetch := fun _ _ => f.

End Sample.

(* ================================================================= *)
(** ** Further vocabulary: the exchange, the validated environment *)

(** The end of [handleCallback], from [if (!response)] on: the page for
    what the token endpoint produced. *)
Definition renderFetched (env : CloudflareEnv) (cp : Provider) (outcome : Fetched)
  : Response :=
  match outcome with
  | NoResponse =>
      errorPage (Some cp) "Failed to request an access token. Please try again later."
        "TOKEN_REQUEST_FAILED" env
  | Unparseable =>
      errorPage (Some cp) "Server responded with malformed data. Please try again later."
        "MALFORMED_RESPONSE" env
  | Parsed data =>
      match Json.getProp data "access_token", Json.getProp data "error" with
      | Some access_token, Some err =>
          outputHTML {| provider := Some cp;
                        token := Some (Json.coalesce access_token (JStr ""));
                        error := Some (Json.coalesce err (JStr ""));
                        errorCode := None |} (Some env)
      | _, _ =>
          errorPage (Some cp) "Server responded with malformed data. Please try again later."
            "MALFORMED_RESPONSE" env
      end
  end.

(** The redirect of [handleAuth] as the constructor leaves it: the two
    headers of the handler and the content type of the empty string
    body. *)
Definition redirectResponse (location cookie : string) : Response :=
  {| status := 302;
     headers := [("Location", location); ("Set-Cookie", cookie);
                 ("Content-Type", "text/plain;charset=UTF-8")];
     body := "" |}.

(** Both credentials of a provider are configured and non-empty. *)
Definition hasCredentials (env : CloudflareEnv) (p : string) : bool :=
  if String.eqb p "github" then
    truthyStr (GITHUB_CLIENT_ID env) && truthyStr (GITHUB_CLIENT_SECRET env)
  else if String.eqb p "gitlab" then
    truthyStr (GITLAB_CLIENT_ID env) && truthyStr (GITLAB_CLIENT_SECRET env)
  else false.

(** A callback that gets as far as the token request: a cookie for
    [github] or [gitlab] with token [T], that provider's credentials, a
    non-empty [code], and [state] equal to [T]. *)
Definition exchangeReady (request : Request) (env : CloudflareEnv) (p T code : string)
  : Prop :=
  cookieMatch request = Some [p; T]
  /\ hasCredentials env p = true
  /\ searchParamsGet "code" (searchParams request) = Some code /\ code <> ""
  /\ searchParamsGet "state" (searchParams request) = Some T.

(** A network that gives [f] at the URL [url] and no response elsewhere. *)
Definition answeringAt (url : string) (f : Fetched) : Fetch :=
  fun u _ => if String.eqb u url then f else NoResponse.

(** [s] occurs in [d]. *)
Definition occursIn (s d : string) : Prop := exists pre post, d = pre ++ s ++ post.

(** *** [env.ts]: the schema of the environment

    [envSchema.parse(process.env)].  A variable of [process.env] is a
    string or is missing.  [z.string().optional()] keeps it as it is;
    [.default(d)] puts [d] for a missing one; [z.enum] refuses a string
    outside its list; [z.coerce.number()] applies [Number] and refuses
    [NaN]; [.refine] refuses the object when its test is falsy.  The
    coercion [Number] and the number 3000 are parameters. *)
Module Env.
Section Schema.

Variable num : Type.
Variable Number : string -> option num.
Variable port3000 : num.

(** The variables of [process.env] the schema reads. *)
Record ProcessEnv : Type := {
  var_NODE_ENV : option string;
  var_HOST : option string;
  var_PORT : option string;
  var_ALLOWED_DOMAINS : option string;
  var_GITHUB_CLIENT_ID : option string;
  var_GITHUB_CLIENT_SECRET : option string;
  var_GITHUB_HOSTNAME : option string;
  var_GITLAB_CLIENT_ID : option string;
  var_GITLAB_CLIENT_SECRET : option string;
  var_GITLAB_HOSTNAME : option string;
  var_BITBUCKET_CLIENT_ID : option string;
  var_BITBUCKET_CLIENT_SECRET : option string;
  var_BITBUCKET_HOSTNAME : option string;
  var_INSECURE_COOKIES : option string;
  var_LOG_LEVEL : option string
}.

(** [z.infer<typeof envSchema>]. *)
Record EnvType : Type := {
  NODE_ENV : string;
  HOST : string;
  PORT : num;
  ALLOWED_DOMAINS : string;
  GITHUB_CLIENT_ID : option string;
  GITHUB_CLIENT_SECRET : option string;
  GITHUB_HOSTNAME : string;
  GITLAB_CLIENT_ID : option string;
  GITLAB_CLIENT_SECRET : option string;
  GITLAB_HOSTNAME : string;
  BITBUCKET_CLIENT_ID : option string;
  BITBUCKET_CLIENT_SECRET : option string;
  BITBUCKET_HOSTNAME : string;
  INSECURE_COOKIES : string;
  LOG_LEVEL : string
}.

(** [z.enum(allowed).default(d)]. *)
Definition zEnumDefault (allowed : list string) (d : string) (v : option string)
  : option string :=
  match v with
  | None => Some d
  | Some s => if includes allowed s then Some s else None
  end.

(** [z.coerce.number().default(3000)]. *)
Definition zCoerceNumberDefault (v : option string) : option num :=
  match v with
  | None => Some port3000
  | Some s => Number s
  end.

(** The test of [.refine]: one provider has both its id and its secret. *)
Definition refinement (env : EnvType) : bool :=
  let hasGitHub := truthyStr (GITHUB_CLIENT_ID env) && truthyStr (GITHUB_CLIENT_SECRET env) in
  let hasGitLab := truthyStr (GITLAB_CLIENT_ID env) && truthyStr (GITLAB_CLIENT_SECRET env) in
  let hasBitbucket :=
    truthyStr (BITBUCKET_CLIENT_ID env) && truthyStr (BITBUCKET_CLIENT_SECRET env) in
  hasGitHub || hasGitLab || hasBitbucket.

(** [envSchema.parse]; [None] is the thrown [ZodError]. *)
Definition parse (vars : ProcessEnv) : option EnvType :=
  match zEnumDefault ["development"; "production"; "test"] "development" (var_NODE_ENV vars),
        zCoerceNumberDefault (var_PORT vars),
        zEnumDefault ["fatal"; "error"; "warn"; "info"; "debug"; "trace"] "info"
          (var_LOG_LEVEL vars)
  with
  | Some nodeEnv, Some port, Some logLevel =>
      let env :=
        {| NODE_ENV := nodeEnv;
           HOST := orElse (var_HOST vars) "localhost";
           PORT := port;
           ALLOWED_DOMAINS :=
             orElse (var_ALLOWED_DOMAINS vars) "localhost,cajuinasaogeraldo.com.br";
           GITHUB_CLIENT_ID := var_GITHUB_CLIENT_ID vars;
           GITHUB_CLIENT_SECRET := var_GITHUB_CLIENT_SECRET vars;
           GITHUB_HOSTNAME := orElse (var_GITHUB_HOSTNAME vars) "github.com";
           GITLAB_CLIENT_ID := var_GITLAB_CLIENT_ID vars;
           GITLAB_CLIENT_SECRET := var_GITLAB_CLIENT_SECRET vars;
           GITLAB_HOSTNAME := orElse (var_GITLAB_HOSTNAME vars) "gitlab.com";
           BITBUCKET_CLIENT_ID := var_BITBUCKET_CLIENT_ID vars;
           BITBUCKET_CLIENT_SECRET := var_BITBUCKET_CLIENT_SECRET vars;
           BITBUCKET_HOSTNAME := orElse (var_BITBUCKET_HOSTNAME vars) "bitbucket.com";
           INSECURE_COOKIES := orElse (var_INSECURE_COOKIES vars) "0";
           LOG_LEVEL := logLevel |} in
      if refinement env then Some env else None
  | _, _, _ => None
  end.

(** The validated environment as the handlers read it
    ([type CloudflareEnv = EnvType]). *)
Definition forHandlers (env : EnvType) : CloudflareEnv :=
  Build_CloudflareEnv
    (Some (ALLOWED_DOMAINS env))
    (GITHUB_CLIENT_ID env) (GITHUB_CLIENT_SECRET env) (Some (GITHUB_HOSTNAME env))
    (GITLAB_CLIENT_ID env) (GITLAB_CLIENT_SECRET env) (Some (GITLAB_HOSTNAME env))
    (BITBUCKET_CLIENT_ID env) (BITBUCKET_CLIENT_SECRET env)
    (Some (BITBUCKET_HOSTNAME env))
    (Some (INSECURE_COOKIES env)).

End Schema.

(** A [process.env] with GitHub's credentials and nothing else. *)
Definition sampleVars : ProcessEnv :=
  {| var_NODE_ENV := None; var_HOST := None; var_PORT := None;
     var_ALLOWED_DOMAINS := None;
     var_GITHUB_CLIENT_ID := Some "Iv1.0a1b2c"; var_GITHUB_CLIENT_SECRET := Some "s3cret";
     var_GITHUB_HOSTNAME := None;
     var_GITLAB_CLIENT_ID := None; var_GITLAB_CLIENT_SECRET := None;
     var_GITLAB_HOSTNAME := None;
     var_BITBUCKET_CLIENT_ID := None; var_BITBUCKET_CLIENT_SECRET := None;
     var_BITBUCKET_HOSTNAME := None;
     var_INSECURE_COOKIES := None; var_LOG_LEVEL := None |}.

(** A [process.env] with Bitbucket's credentials and nothing else. *)
Definition bitbucketOnlyVars : ProcessEnv :=
  {| var_NODE_ENV := None; var_HOST := None; var_PORT := None;
     var_ALLOWED_DOMAINS := None;
     var_GITHUB_CLIENT_ID := None; var_GITHUB_CLIENT_SECRET := None;
     var_GITHUB_HOSTNAME := None;
     var_GITLAB_CLIENT_ID := None; var_GITLAB_CLIENT_SECRET := None;
     var_GITLAB_HOSTNAME := None;
     var_BITBUCKET_CLIENT_ID := Some "bb-id"; var_BITBUCKET_CLIENT_SECRET := Some "bb-secret";
     var_BITBUCKET_HOSTNAME := None;
     var_INSECURE_COOKIES := None; var_LOG_LEVEL := None |}.

(** What the schema makes of [sampleVars] and of [bitbucketOnlyVars]. *)
Definition sampleEnv : EnvType N :=
  {| NODE_ENV := "development"; HOST := "localhost"; PORT := 3000%N;
     ALLOWED_DOMAINS := "localhost,cajuinasaogeraldo.com.br";
     GITHUB_CLIENT_ID := Some "Iv1.0a1b2c"; GITHUB_CLIENT_SECRET := Some "s3cret";
     GITHUB_HOSTNAME := "github.com";
     GITLAB_CLIENT_ID := None; GITLAB_CLIENT_SECRET := None; GITLAB_HOSTNAME := "gitlab.com";
     BITBUCKET_CLIENT_ID := None; BITBUCKET_CLIENT_SECRET := None;
     BITBUCKET_HOSTNAME := "bitbucket.com";
     INSECURE_COOKIES := "0"; LOG_LEVEL := "info" |}.

Definition bitbucketOnlyEnv : EnvType N :=
  {| NODE_ENV := "development"; HOST := "localhost"; PORT := 3000%N;
     ALLOWED_DOMAINS := "localhost,cajuinasaogeraldo.com.br";
     GITHUB_CLIENT_ID := None; GITHUB_CLIENT_SECRET := None;
     GITHUB_HOSTNAME := "github.com";
     GITLAB_CLIENT_ID := None; GITLAB_CLIENT_SECRET := None; GITLAB_HOSTNAME := "gitlab.com";
     BITBUCKET_CLIENT_ID := Some "bb-id"; BITBUCKET_CLIENT_SECRET := Some "bb-secret";
     BITBUCKET_HOSTNAME := "bitbucket.com";
     INSECURE_COOKIES := "0"; LOG_LEVEL := "info" |}.

(** A stand-in for [Number] on the strings of the samples. *)
Definition sampleNumber (s : string) : option N :=
  if String.eqb s "8080" then Some 8080%N else None.

End Env.

(** Case analysis on every test a handler makes. *)
Ltac split_conditions :=
  repeat match goal with
         | |- context [if ?b then _ else _] => destruct b
         | |- context [match ?f ?u ?v with NoResponse => _ | _ => _ end] => destruct (f u v)
         | |- context [match Json.getProp ?d ?k with _ => _ end] => destruct (Json.getProp d k)
         end.

(* ================================================================= *)
(** ** Lemmas on characters and strings *)

Section StringFacts.

Lemma append_empty_r (s : string) : s ++ "" = s.
Proof. induction s as [|c s IH]; simpl; [reflexivity | now rewrite IH]. Qed.

Lemma append_assoc (a b c : string) : (a ++ b) ++ c = a ++ b ++ c.
Proof. induction a as [|x a IH]; simpl; [reflexivity | now rewrite IH]. Qed.

Lemma length_append (a b : string) :
  String.length (a ++ b) = String.length a + String.length b.
Proof. induction a as [|x a IH]; simpl; [reflexivity | now rewrite IH]. Qed.

Lemma all_append (p : ascii -> bool) (a b : string) :
  Str.all p (a ++ b) = Str.all p a && Str.all p b.
Proof.
  induction a as [|x a IH]; simpl; [reflexivity |].
  now rewrite IH, andb_assoc.
Qed.

Lemma all_ofList (p : ascii -> bool) (l : list ascii) :
  Str.all p (Str.ofList l) = forallb p l.
Proof. induction l as [|x l IH]; simpl; [reflexivity | now rewrite IH]. Qed.

Lemma length_ofList (l : list ascii) : String.length (Str.ofList l) = List.length l.
Proof. induction l as [|x l IH]; simpl; [reflexivity | now rewrite IH]. Qed.

Lemma isEmpty_true (s : string) : Str.isEmpty s = true <-> s = "".
Proof. destruct s; simpl; split; intros H; try reflexivity; discriminate. Qed.

Lemma truthyStr_Some (s : string) : truthyStr (Some s) = true <-> s <> "".
Proof.
  destruct s; simpl; split; intros H; try discriminate; try reflexivity.
  now contradiction H.
Qed.

Lemma truthyStr_false (o : option string) :
  truthyStr o = false <-> o = None \/ o = Some "".
Proof.
  destruct o as [[|c s]|]; simpl; split; intros H; auto; try discriminate.
  destruct H as [H | H]; discriminate.
Qed.

Lemma supported_cases (p : string) :
  includes supportedProviders p = true ->
  p = "github" \/ p = "gitlab" \/ p = "bitbucket".
Proof.
  unfold includes, supportedProviders. simpl.
  destruct (String.eqb_spec p "github") as [-> | _]; [auto |].
  destruct (String.eqb_spec p "gitlab") as [-> | _]; [auto |].
  destruct (String.eqb_spec p "bitbucket") as [-> | _]; [auto |].
  discriminate.
Qed.

Lemma hexLower_isLowerHex (n : nat) : isLowerHex (hexLower n) = true.
Proof. do 17 (destruct n as [|n]; [reflexivity |]). destruct n; reflexivity. Qed.

Lemma hexLower_not_hyphen (n : nat) : Ascii.eqb (hexLower n) "-" = false.
Proof. do 17 (destruct n as [|n]; [reflexivity |]). destruct n; reflexivity. Qed.

Lemma isLowerHex_isWord (c : ascii) : isLowerHex c = true -> isWord c = true.
Proof. destruct c as [[] [] [] [] [] [] [] []]; vm_compute; congruence. Qed.

Lemma isLowerHex_formEncodeChar (c : ascii) :
  isLowerHex c = true -> formEncodeChar c = Str.char c.
Proof. destruct c as [[] [] [] [] [] [] [] []]; vm_compute; congruence. Qed.

Lemma isLowerOrHyphen_not_underscore (c : ascii) :
  isLowerOrHyphen c = true -> Ascii.eqb c "_" = false.
Proof. destruct c as [[] [] [] [] [] [] [] []]; vm_compute; congruence. Qed.

Lemma formEncode_lowerHex (s : string) :
  Str.all isLowerHex s = true -> formEncode s = s.
Proof.
  induction s as [|c s IH]; simpl; [reflexivity |].
  intros H. apply andb_true_iff in H as [Hc Hs].
  now rewrite (isLowerHex_formEncodeChar c Hc), (IH Hs).
Qed.

End StringFacts.

(* ================================================================= *)
(** ** The pages of [outputHTML] *)

Section Pages.

Variable env : CloudflareEnv.

Lemma outputHTML_status (o : OutputHTMLOptions) (e : option CloudflareEnv) :
  status (outputHTML o e) = 200.
Proof. reflexivity. Qed.

Lemma outputHTML_headers (o : OutputHTMLOptions) (e : option CloudflareEnv) :
  headers (outputHTML o e) =
  [("Content-Type", "text/html;charset=UTF-8");
   ("Set-Cookie",
    "csrf-token=deleted; HttpOnly; Max-Age=0; Path=/; SameSite=Lax" ++ secureAttr e)].
Proof. reflexivity. Qed.

Lemma errorPage_headers (p : option Provider) (msg c : string) :
  headers (errorPage p msg c env) =
  [("Content-Type", "text/html;charset=UTF-8"); ("Set-Cookie", deletionCookie env)].
Proof. reflexivity. Qed.

Lemma errorPage_cookie (p : option Provider) (msg c : string) :
  header "Set-Cookie" (errorPage p msg c env) = Some (deletionCookie env).
Proof. reflexivity. Qed.

(** An error page with a non-empty message is in state [error] and its
    payload has the three fields, in the order of the object literal. *)
Lemma errorPage_body (p : option Provider) (msg c : string) :
  msg <> "" ->
  body (errorPage p msg c env) =
  let name := providerName (match p with Some q => q | None => unknown end) in
  page name "error"
    (Json.stringify (JObj [("provider", JStr name); ("error", JStr msg);
                           ("errorCode", JStr c)])).
Proof.
  intros Hmsg. destruct msg as [|m ms]; [now contradiction Hmsg |].
  reflexivity.
Qed.

End Pages.

(** The two handlers, once their first test has passed. *)
Section Dispatch.

Variables (fetch : Fetch) (request : Request) (env : CloudflareEnv).

Lemma handleAuth_unsupported (rnd : N) :
  includes supportedProviders
    (orElse (searchParamsGet "provider" (searchParams request)) "") = false ->
  handleAuth rnd request env =
  Returned (errorPage None "Your Git backend is not supported by the authenticator."
              "UNSUPPORTED_BACKEND" env).
Proof.
  intros H. unfold handleAuth. rewrite H, andb_false_r. reflexivity.
Qed.

Lemma handleCallback_unsupported (p : option string) :
  match cookieMatch request with Some m => nth_error m 0 | None => None end = p ->
  includes supportedProviders (orElse p "") = false ->
  handleCallback fetch request env =
  errorPage None "Your Git backend is not supported by the authenticator."
    "UNSUPPORTED_BACKEND" env.
Proof.
  intros Hp H. unfold handleCallback. rewrite Hp, H, andb_false_r. reflexivity.
Qed.

Lemma supported_truthy (p : string) :
  includes supportedProviders p = true -> truthyStr (Some p) = true.
Proof.
  intros H. destruct (supported_cases p H) as [-> | [-> | ->]]; reflexivity.
Qed.

(** After a recognised cookie, [handleCallback] is two tests and the
    exchange. *)
Lemma handleCallback_recognized (p T : string) :
  cookieMatch request = Some [p; T] ->
  includes supportedProviders p = true ->
  handleCallback fetch request env =
  let code := searchParamsGet "code" (searchParams request) in
  let state := searchParamsGet "state" (searchParams request) in
  if negb (truthyStr code && truthyStr state) then
    errorPage (Some (asProvider (Some p)))
      "Failed to receive an authorization code. Please try again later."
      "AUTH_CODE_REQUEST_FAILED" env
  else if negb (truthyStr (Some T) && String.eqb (orElse state "") T) then
    errorPage (Some (asProvider (Some p)))
      "Potential CSRF attack detected. Authentication flow aborted."
      "CSRF_DETECTED" env
  else exchangeToken fetch request env p (asProvider (Some p)) (orElse code "").
Proof.
  intros Hc Hp. unfold handleCallback. rewrite Hc. cbn [nth_error orElse].
  rewrite Hp, (supported_truthy p Hp). cbn [andb].
  destruct (truthyStr (searchParamsGet "code" (searchParams request))
            && truthyStr (searchParamsGet "state" (searchParams request)));
    cbn [negb]; [| reflexivity].
  destruct (truthyStr (Some T)
            && String.eqb (orElse (searchParamsGet "state" (searchParams request)) "") T);
    reflexivity.
Qed.

(** After a known provider, [handleAuth] is the allow-list test and the
    provider's branch. *)
Lemma handleAuth_rejected (rnd : N) (p : string) :
  searchParamsGet "provider" (searchParams request) = Some p ->
  includes supportedProviders p = true ->
  domainRejected (ALLOWED_DOMAINS env)
    (searchParamsGet "site_id" (searchParams request)) = true ->
  handleAuth rnd request env =
  Returned (errorPage (Some (asProvider (Some p)))
              "Your domain is not allowed to use the authenticator."
              "UNSUPPORTED_DOMAIN" env).
Proof.
  intros Hq Hp Hd. unfold handleAuth. rewrite Hq. cbn [orElse].
  rewrite Hp, (supported_truthy p Hp), Hd. reflexivity.
Qed.

Lemma handleAuth_github (rnd : N) :
  searchParamsGet "provider" (searchParams request) = Some "github" ->
  domainRejected (ALLOWED_DOMAINS env)
    (searchParamsGet "site_id" (searchParams request)) = false ->
  handleAuth rnd request env =
  if truthyStr (GITHUB_CLIENT_ID env) && truthyStr (GITHUB_CLIENT_SECRET env) then
    let csrfToken := Str.replaceAllChar "-" "" (randomUUID rnd) in
    newResponse "" 302
      [("Location",
        "https://" ++ orElse (GITHUB_HOSTNAME env) "github.com"
          ++ "/login/oauth/authorize?"
          ++ searchParamsToString [("client_id", orElse (GITHUB_CLIENT_ID env) "");
                                   ("scope", "repo,user"); ("state", csrfToken)]);
       ("Set-Cookie", issuedCookie "github" csrfToken)]
  else Returned (errorPage (Some github) "OAuth app client ID or secret is not configured."
                   "MISCONFIGURED_CLIENT" env).
Proof.
  intros Hq Hd. unfold handleAuth. rewrite Hq, Hd. cbn [orElse].
  destruct (truthyStr (GITHUB_CLIENT_ID env) && truthyStr (GITHUB_CLIENT_SECRET env));
    reflexivity.
Qed.

Lemma handleAuth_gitlab (rnd : N) :
  searchParamsGet "provider" (searchParams request) = Some "gitlab" ->
  domainRejected (ALLOWED_DOMAINS env)
    (searchParamsGet "site_id" (searchParams request)) = false ->
  handleAuth rnd request env =
  if truthyStr (GITLAB_CLIENT_ID env) && truthyStr (GITLAB_CLIENT_SECRET env) then
    let csrfToken := Str.replaceAllChar "-" "" (randomUUID rnd) in
    newResponse "" 302
      [("Location",
        "https://" ++ orElse (GITLAB_HOSTNAME env) "gitlab.com" ++ "/oauth/authorize?"
          ++ searchParamsToString [("client_id", orElse (GITLAB_CLIENT_ID env) "");
                                   ("redirect_uri", origin request ++ "/callback");
                                   ("response_type", "code");
                                   ("scope", "api"); ("state", csrfToken)]);
       ("Set-Cookie", issuedCookie "gitlab" csrfToken)]
  else Returned (errorPage (Some gitlab) "OAuth app client ID or secret is not configured."
                   "MISCONFIGURED_CLIENT" env).
Proof.
  intros Hq Hd. unfold handleAuth. rewrite Hq, Hd. cbn [orElse].
  destruct (truthyStr (GITLAB_CLIENT_ID env) && truthyStr (GITLAB_CLIENT_SECRET env));
    reflexivity.
Qed.

Lemma handleAuth_bitbucket (rnd : N) :
  searchParamsGet "provider" (searchParams request) = Some "bitbucket" ->
  domainRejected (ALLOWED_DOMAINS env)
    (searchParamsGet "site_id" (searchParams request)) = false ->
  handleAuth rnd request env =
  Returned (errorPage (Some bitbucket) "Bitbucket OAuth is not yet supported."
              "UNSUPPORTED_BACKEND" env).
Proof.
  intros Hq Hd. unfold handleAuth. rewrite Hq, Hd. reflexivity.
Qed.

Lemma exchangeToken_bitbucket (cp : Provider) (code : string) :
  exchangeToken fetch request env "bitbucket" cp code =
  errorPage (Some cp) "Bitbucket OAuth is not yet supported." "UNSUPPORTED_BACKEND" env.
Proof. reflexivity. Qed.

End Dispatch.

(* ================================================================= *)
(** ** The allow-list pattern *)

Module AllowList.
Import Regex.

(** *** From the entry to the pattern text *)

Lemma syntaxChar_cases (c : ascii) :
  isSyntaxChar c = false ->
  Ascii.eqb c backslash = false /\ Ascii.eqb c "*" = false
  /\ tokenOf c = TAtom (CChar c).
Proof. destruct c as [[] [] [] [] [] [] [] []]; vm_compute; intros H; auto; discriminate. Qed.

Lemma star_isSyntaxChar (c : ascii) : Ascii.eqb c "*" = true -> isSyntaxChar c = true.
Proof. intros H. apply Ascii.eqb_eq in H. now subst. Qed.

Lemma replaceFirst_step (pat rep : string) (c : ascii) (r : string) :
  Str.startsWith pat (String c r) = false ->
  Str.replaceFirst pat rep (String c r) = String c (Str.replaceFirst pat rep r).
Proof. intros H. cbn [Str.replaceFirst]. rewrite H. reflexivity. Qed.

Lemma escapeRegExp_not_star_first (s : string) :
  Str.startsWith "*" (escapeRegExp s) = false.
Proof.
  destruct s as [|c r]; [reflexivity |]. cbn [escapeRegExp].
  destruct (isSyntaxChar c) eqn:Hc.
  - reflexivity.
  - destruct (syntaxChar_cases c Hc) as (_ & Hs & _).
    cbn [Str.startsWith]. rewrite Ascii.eqb_sym, Hs. reflexivity.
Qed.

(** Replacing the first escaped star: the pattern text is the escaped
    prefix, [.+], and the escaped rest. *)
Lemma replaceFirst_escape (e : string) :
  Str.replaceFirst "\*" ".+" (escapeRegExp e) =
  match splitAtStar e with
  | None => escapeRegExp e
  | Some (pre, post) => escapeRegExp pre ++ ".+" ++ escapeRegExp post
  end.
Proof.
  induction e as [|c r IH]; [reflexivity |].
  cbn [escapeRegExp splitAtStar].
  destruct (Ascii.eqb c "*") eqn:Hstar.
  - rewrite (star_isSyntaxChar c Hstar). apply Ascii.eqb_eq in Hstar. subst c.
    reflexivity.
  - assert (Hp : Str.startsWith "\*" (String c (escapeRegExp r)) = false).
    { cbn [Str.startsWith]. destruct (Ascii.eqb "\" c) eqn:Hb; [| reflexivity].
      apply Ascii.eqb_eq in Hb. subst c.
      change (Str.startsWith "*" (escapeRegExp r) = false).
      apply escapeRegExp_not_star_first. }
    destruct (isSyntaxChar c) eqn:Hc.
    + (* an escaped character other than the star *)
      assert (Hq : Str.startsWith "\*" (String "\" (String c (escapeRegExp r))) = false).
      { cbn [Str.startsWith]. rewrite (Ascii.eqb_sym "*" c), Hstar. reflexivity. }
      change backslash with "\"%char.
      rewrite (replaceFirst_step "\*" ".+" "\" _ Hq).
      rewrite (replaceFirst_step "\*" ".+" c _ Hp), IH.
      destruct (splitAtStar r) as [[a b] |]; cbn [escapeRegExp]; rewrite ?Hc; reflexivity.
    + rewrite (replaceFirst_step "\*" ".+" c _ Hp), IH.
      destruct (splitAtStar r) as [[a b] |]; cbn [escapeRegExp]; rewrite ?Hc; reflexivity.
Qed.

(** *** From the pattern text to the nodes *)

Lemma lex_escape (s rest : string) :
  lex (escapeRegExp s ++ rest) = (litTokens s ++ lex rest)%list.
Proof.
  induction s as [|c r IH]; [reflexivity |].
  cbn [escapeRegExp]. destruct (isSyntaxChar c) eqn:Hc.
  - cbn [append lex]. change (Ascii.eqb backslash backslash) with true.
    cbn iota. rewrite Hc, IH. reflexivity.
  - destruct (syntaxChar_cases c Hc) as (Hb & _ & Ht).
    cbn [append lex]. rewrite Hb, Ht, IH. reflexivity.
Qed.

Lemma parse_atom (cs : cset) (ts : list token) :
  ~ headIs TPlus ts ->
  parse (TAtom cs :: ts) = option_map (cons (Atom cs One)) (parse ts).
Proof.
  intros H. destruct ts as [|t ts]; [reflexivity |].
  destruct t; try reflexivity. now contradiction H.
Qed.

Lemma litTokens_no_plus (s : string) (ts : list token) :
  ~ headIs TPlus ts -> ~ headIs TPlus (litTokens s ++ ts)%list.
Proof. destruct s; simpl; auto. Qed.

Lemma parse_lits (s : string) (ts : list token) :
  ~ headIs TPlus ts ->
  parse (litTokens s ++ ts)%list = option_map (app (lit s)) (parse ts).
Proof.
  intros H. induction s as [|c r IH].
  - simpl. destruct (parse ts); reflexivity.
  - cbn [litTokens app]. rewrite parse_atom by now apply litTokens_no_plus.
    rewrite IH. destruct (parse ts); reflexivity.
Qed.

Lemma parse_plus (cs : cset) (ts : list token) :
  ~ headIs TQuest ts ->
  parse (TAtom cs :: TPlus :: ts) = option_map (cons (Atom cs Plus)) (parse ts).
Proof.
  intros H. destruct ts as [|t ts]; [reflexivity |].
  destruct t; try reflexivity. now contradiction H.
Qed.

Lemma litTokens_no_quest (s : string) :
  ~ headIs TQuest (litTokens s ++ [TEol])%list.
Proof. destruct s; simpl; auto. Qed.

(** Every allow-list entry gives a pattern the fragment reads. *)
Lemma domainPattern_reads (str : string) :
  RegExp (domainPattern str) = Some (Bol :: entryNodes (Str.trim str) ++ [Eol])%list.
Proof.
  unfold RegExp, domainPattern, entryNodes.
  rewrite replaceFirst_escape.
  set (e := Str.trim str). clearbody e.
  change (lex ("^" ++ ?x)) with (TBol :: lex x).
  destruct (splitAtStar e) as [[pre post] |].
  - rewrite !append_assoc, lex_escape.
    change (lex (".+" ++ ?x)) with (TAtom CDot :: TPlus :: lex x).
    rewrite lex_escape.
    change (lex "$") with [TEol].
    cbn [parse]. rewrite parse_lits by (simpl; auto).
    rewrite parse_plus by apply litTokens_no_quest.
    rewrite parse_lits by (simpl; auto).
    simpl. rewrite <- !app_assoc. reflexivity.
  - rewrite lex_escape. change (lex "$") with [TEol].
    cbn [parse]. rewrite parse_lits by (simpl; auto).
    reflexivity.
Qed.

End AllowList.

(* ================================================================= *)
(** ** What the matcher accepts, without captures *)

Module Accepts.
Import Regex.

Lemma decides_accept : decides accept (fun _ => True).
Proof. intros prev s cp. unfold accept. split; [auto | discriminate]. Qed.

Lemma decides_eol (k : cont) (Q : string -> Prop) :
  decides k Q -> decides (step Eol k) (fun s => s = "" /\ Q s).
Proof.
  intros Hk prev s cp. cbn [step]. destruct s as [|c r].
  - rewrite (Hk prev "" cp). tauto.
  - split; [intros H; now contradiction H | intros [H _]; discriminate H].
Qed.

Lemma decides_one (cs : cset) (k : cont) (Q : string -> Prop) :
  decides k Q ->
  decides (one cs k) (fun s => exists c r, s = String c r /\ mem cs c = true /\ Q r).
Proof.
  intros Hk prev s cp. unfold one. destruct s as [|c r].
  - split; [intros H; now contradiction H | intros (c & r & H & _); discriminate H].
  - destruct (mem cs c) eqn:Hc.
    + rewrite (Hk (Some c) r (consume c cp)). split.
      * intros H. now exists c, r.
      * intros (c' & r' & E & _ & H). now inversion E; subst.
    + split; [intros H; now contradiction H |].
      intros (c' & r' & E & Hm & _). inversion E; subst. congruence.
Qed.

Lemma decides_star (cs : cset) (k : cont) (Q : string -> Prop) :
  decides k Q ->
  decides (star cs k)
    (fun s => exists m r, s = m ++ r /\ Str.all (mem cs) m = true /\ Q r).
Proof.
  intros Hk prev s. revert prev.
  induction s as [|c t IH]; intros prev cp; cbn [star].
  - rewrite (Hk prev "" cp). split.
    + intros H. now exists "", "".
    + intros (m & r & E & _ & H). destruct m; [| discriminate E].
      simpl in E. now subst r.
  - destruct (mem cs c) eqn:Hc.
    + destruct (star cs k (Some c) t (consume c cp)) as [x |] eqn:Hs.
      * split; [intros _ | discriminate].
        assert (Hn : star cs k (Some c) t (consume c cp) <> None) by congruence.
        apply IH in Hn as (m & r & E & Hm & Hq).
        exists (String c m), r. simpl. rewrite Hc, Hm, E. auto.
      * rewrite (Hk prev (String c t) cp). split.
        -- intros H. now exists "", (String c t).
        -- intros (m & r & E & Hm & Hq). destruct m as [|c' m'].
           ++ simpl in E. now subst r.
           ++ simpl in E, Hm. inversion E; subst c' t.
              apply andb_true_iff in Hm as [_ Hm].
              exfalso.
              assert (Hn : star cs k (Some c) (m' ++ r) (consume c cp) <> None).
              { apply IH. now exists m', r. }
              now apply Hn.
    + rewrite (Hk prev (String c t) cp). split.
      * intros H. now exists "", (String c t).
      * intros (m & r & E & Hm & Hq). destruct m as [|c' m'].
        -- simpl in E. now subst r.
        -- simpl in E, Hm. inversion E; subst c' t. rewrite Hc in Hm. discriminate Hm.
Qed.

Lemma decides_lit (p : string) (k : cont) (Q : string -> Prop) :
  decides k Q ->
  decides (fold_right step k (lit p)) (fun s => exists r, s = p ++ r /\ Q r).
Proof.
  intros Hk. induction p as [|c p IH]; cbn [lit fold_right step].
  - intros prev s cp. rewrite (Hk prev s cp). split.
    + intros H. now exists s.
    + intros (r & E & H). simpl in E. now subst r.
  - intros prev s cp. rewrite (decides_one (CChar c) _ _ IH prev s cp). split.
    + intros (c' & r & E & Hm & r' & E' & H). simpl in Hm.
      apply Ascii.eqb_eq in Hm. subst. now exists r'.
    + intros (r & E & H). exists c, (p ++ r). repeat split; auto.
      * simpl. apply Ascii.eqb_refl.
      * now exists r.
Qed.

(** A pattern that opens with [^] is tried at the start only. *)
Lemma scan_bol_later (k : cont) (c : ascii) (s : string) :
  scan (step Bol k) (Some c) s = None.
Proof. revert c. induction s as [|d s IH]; intros c; cbn [scan step]; auto. Qed.

Lemma exec_bol (ns : list node) (s : string) :
  exec (Bol :: ns) s = matcher ns None s noCaps.
Proof.
  unfold exec, matcher. cbn [fold_right]. destruct s as [|c r]; cbn [scan step].
  - destruct (fold_right step accept ns None "" noCaps); reflexivity.
  - destruct (fold_right step accept ns None (String c r) noCaps); [reflexivity |].
    apply scan_bol_later.
Qed.

End Accepts.

(** The allow-list test of the handler is [wildcardMatch]. *)
Lemma domainMatches_spec (domain : option string) (entry : string) :
  domainMatches domain entry = true <-> wildcardMatch entry (orElse domain "").
Proof.
  unfold domainMatches, wildcardMatch.
  rewrite AllowList.domainPattern_reads, Accepts.exec_bol.
  unfold entryNodes, Regex.matcher.
  set (e := Str.trim entry). set (d := orElse domain ""). clearbody e d.
  pose proof (Accepts.decides_eol _ _ Accepts.decides_accept) as Hend.
  assert (Hbool : forall o : option (list string),
             (match o with Some _ => true | None => false end) = true <-> o <> None).
  { intros [x |]; split; intros H; try reflexivity; try discriminate.
    now contradiction H. }
  rewrite Hbool.
  destruct (splitAtStar e) as [[pre post] |].
  - rewrite !fold_right_app. cbn [fold_right Regex.step].
    pose proof (Accepts.decides_lit post _ _ Hend) as Hpost.
    pose proof (Accepts.decides_star Regex.CDot _ _ Hpost) as Hstar.
    pose proof (Accepts.decides_one Regex.CDot _ _ Hstar) as Hone.
    rewrite (Accepts.decides_lit pre _ _ Hone None d Regex.noCaps). split.
    + intros (r & -> & c & r1 & -> & Hc & m & r2 & -> & Hm & r3 & -> & -> & _).
      exists (String c m). repeat split; [discriminate | |].
      * simpl. unfold notLineTerminator. simpl in Hc. now rewrite Hc.
      * simpl. now rewrite append_empty_r.
    + intros (mid & Hne & Hall & ->). destruct mid as [|c m]; [now contradiction Hne |].
      simpl in Hall. apply andb_true_iff in Hall as [Hc Hm].
      exists (String c m ++ post). split; [reflexivity |].
      exists c, (m ++ post). repeat split; auto.
      exists m, post. repeat split; auto.
      exists "". now rewrite append_empty_r.
  - rewrite fold_right_app. cbn [fold_right].
    rewrite (Accepts.decides_lit e _ _ Hend None d Regex.noCaps). split.
    + intros (r & -> & -> & _). now rewrite append_empty_r.
    + intros ->. exists "". now rewrite append_empty_r.
Qed.

Lemma domainRejected_spec (allowed domain : option string) :
  domainRejected allowed domain = false <->
  orElse allowed "" = ""
  \/ exists entry, In entry (Str.split "," (orElse allowed ""))
                   /\ wildcardMatch entry (orElse domain "").
Proof.
  unfold domainRejected. split.
  - intros H. apply andb_false_iff in H as [H | H].
    + left. apply truthyStr_false in H as [-> | ->]; reflexivity.
    + right. apply negb_false_iff, existsb_exists in H as (entry & Hin & Hm).
      exists entry. split; [exact Hin | now apply domainMatches_spec].
  - intros [H | (entry & Hin & Hm)].
    + destruct allowed as [[|c s] |]; try reflexivity. discriminate H.
    + apply andb_false_iff. right. apply negb_false_iff, existsb_exists.
      exists entry. split; [exact Hin | now apply domainMatches_spec].
Qed.

(** Past the allow-list, no page of [handleAuth] carries [UNSUPPORTED_DOMAIN]. *)
Lemma handleAuth_proceeds (rnd : N) (request : Request) (env : CloudflareEnv) (p : string) :
  searchParamsGet "provider" (searchParams request) = Some p ->
  includes supportedProviders p = true ->
  domainRejected (ALLOWED_DOMAINS env)
    (searchParamsGet "site_id" (searchParams request)) = false ->
  shows (errorCodeText "UNSUPPORTED_DOMAIN") (handleAuth rnd request env) = false.
Proof.
  intros Hq Hp Hd. destruct (supported_cases p Hp) as [-> | [-> | ->]].
  - rewrite (handleAuth_github _ _ _ Hq Hd).
    destruct (truthyStr (GITHUB_CLIENT_ID env) && truthyStr (GITHUB_CLIENT_SECRET env));
      [| reflexivity].
    cbv zeta. unfold newResponse. destruct (forallb _ _); reflexivity.
  - rewrite (handleAuth_gitlab _ _ _ Hq Hd).
    destruct (truthyStr (GITLAB_CLIENT_ID env) && truthyStr (GITLAB_CLIENT_SECRET env));
      [| reflexivity].
    cbv zeta. unfold newResponse. destruct (forallb _ _); reflexivity.
  - rewrite (handleAuth_bitbucket _ _ _ Hq Hd). reflexivity.
Qed.

(** ** C5: the domain allow-list *)

(** C5 (as amended).  For a request with a known provider, [handleAuth]
    goes past the allow-list exactly when the list is unset or empty, or
    the target domain matches one of its comma-separated entries, where an
    entry is first trimmed of surrounding white space and then read as a
    literal string anchored at both ends, except that its first [*] stands
    for one or more characters none of which is a line terminator.
    Otherwise the response is the [UNSUPPORTED_DOMAIN] page. *)
Theorem allow_list_rule (rnd : N) (request : Request) (env : CloudflareEnv) (p : string) :
  searchParamsGet "provider" (searchParams request) = Some p ->
  includes supportedProviders p = true ->
  let domain := orElse (searchParamsGet "site_id" (searchParams request)) "" in
  let allowed := orElse (ALLOWED_DOMAINS env) "" in
  let passes :=
    allowed = ""
    \/ exists entry, In entry (Str.split "," allowed) /\ wildcardMatch entry domain in
  (passes <->
   shows (errorCodeText "UNSUPPORTED_DOMAIN") (handleAuth rnd request env) = false)
  /\ (~ passes <->
      handleAuth rnd request env =
      Returned (errorPage (Some (asProvider (Some p)))
                  "Your domain is not allowed to use the authenticator."
                  "UNSUPPORTED_DOMAIN" env)).
Proof.
  intros Hq Hp domain allowed passes.
  pose proof (domainRejected_spec (ALLOWED_DOMAINS env)
                (searchParamsGet "site_id" (searchParams request))) as Hspec.
  fold domain allowed passes in Hspec.
  assert (Hpage : embeds (errorCodeText "UNSUPPORTED_DOMAIN")
                    (errorPage (Some (asProvider (Some p)))
                       "Your domain is not allowed to use the authenticator."
                       "UNSUPPORTED_DOMAIN" env) = true).
  { destruct (supported_cases p Hp) as [-> | [-> | ->]]; reflexivity. }
  destruct (domainRejected (ALLOWED_DOMAINS env)
              (searchParamsGet "site_id" (searchParams request))) eqn:Hd.
  - assert (Hno : ~ passes).
    { intros H. apply Hspec in H. discriminate H. }
    rewrite (handleAuth_rejected _ _ _ _ Hq Hp Hd). cbn [shows]. rewrite Hpage.
    split; split; intros H.
    + now contradiction Hno.
    + discriminate H.
    + reflexivity.
    + exact Hno.
  - assert (Hyes : passes) by now apply Hspec.
    pose proof (handleAuth_proceeds rnd _ _ _ Hq Hp Hd) as Hgo.
    split; split; intros H; auto.
    + now contradiction H.
    + rewrite H in Hgo. cbn [shows] in Hgo. rewrite Hpage in Hgo. discriminate Hgo.
Qed.

(** The theorem at [site_id=a.example.com] against [*.example.com]. *)
Lemma allow_list_rule_witness :
  searchParamsGet "provider"
    (searchParams (Sample.authRequest "github" "a.example.com")) = Some "github"
  /\ includes supportedProviders "github" = true
  /\ shows (errorCodeText "UNSUPPORTED_DOMAIN")
       (handleAuth Sample.rnd (Sample.authRequest "github" "a.example.com") Sample.env)
     = false.
Proof.
  split; [reflexivity |]. split; [reflexivity |].
  apply (proj1 (allow_list_rule Sample.rnd (Sample.authRequest "github" "a.example.com")
                  Sample.env "github" eq_refl eq_refl)).
  right. exists "*.example.com". split; [left; reflexivity |].
  exists "a". repeat split; discriminate.
Defined.

(** The two requests the specification names. *)
Example allow_list_evil :
  handleAuth Sample.rnd (Sample.authRequest "github" "evil.com") Sample.env =
  Returned (errorPage (Some github) "Your domain is not allowed to use the authenticator."
              "UNSUPPORTED_DOMAIN" Sample.env).
Proof. vm_compute. reflexivity. Qed.

Example allow_list_subdomain :
  statusOf (handleAuth Sample.rnd (Sample.authRequest "github" "a.example.com") Sample.env)
  = Some 302.
Proof. vm_compute. reflexivity. Qed.

(** C5 as the specification words it fails in both directions.  A domain
    with a line feed in the part the [*] covers is one or more characters
    in front of [.example.com], yet it is turned away; and the entry
    [" b.example.com"], which as a literal string is not the domain
    ["b.example.com"], lets that domain through. *)
Lemma allow_list_literal_reading_fails :
  ((exists entry, In entry (Str.split "," "*.example.com")
                  /\ literalOrWildcard entry ("a" ++ nl ++ "b.example.com"))
   /\ handleAuth Sample.rnd (Sample.authRequest "github" ("a" ++ nl ++ "b.example.com"))
        Sample.env
      = Returned (errorPage (Some github)
                    "Your domain is not allowed to use the authenticator."
                    "UNSUPPORTED_DOMAIN" Sample.env))
  /\ ((forall entry, In entry (Str.split "," "a.example.com, b.example.com") ->
                     ~ literalOrWildcard entry "b.example.com")
      /\ statusOf (handleAuth Sample.rnd (Sample.authRequest "github" "b.example.com")
                     (Sample.withAllowed (Some "a.example.com, b.example.com") Sample.env))
         = Some 302).
Proof.
  split; split.
  - exists "*.example.com". split; [left; reflexivity |].
    exists ("a" ++ nl ++ "b"). split; [discriminate | reflexivity].
  - vm_compute. reflexivity.
  - intros entry [<- | [<- | []]]; vm_compute; discriminate.
  - vm_compute. reflexivity.
Qed.

(* ================================================================= *)
(** ** The cookie pattern: what a match tells, and what matches *)

Module Captures.
Import Regex.

Lemma closed_consumeAll (m : string) (cp : caps) :
  closed (consumeAll m cp) = closed cp.
Proof. revert cp. induction m as [|c m IH]; intros cp; simpl; [| rewrite IH]; reflexivity. Qed.

Lemma opened_consumeAll (m : string) (cp : caps) :
  opened (consumeAll m cp) = option_map (fun t => t ++ m) (opened cp).
Proof.
  revert cp. induction m as [|c m IH]; intros cp; simpl.
  - destruct (opened cp); simpl; [now rewrite append_empty_r | reflexivity].
  - rewrite IH. simpl. destruct (opened cp); simpl; [| reflexivity].
    now rewrite append_assoc.
Qed.

Lemma lastOr_word (p : ascii -> bool) (prev : option ascii) (m : string) :
  (forall c, p c = true -> isWord c = true) ->
  m <> "" -> Str.all p m = true -> isWordAt (lastOr prev m) = true.
Proof.
  intros Hp. revert prev. induction m as [|c m IH]; intros prev Hne Hall.
  - now contradiction Hne.
  - simpl in Hall. apply andb_true_iff in Hall as [Hc Hm]. simpl.
    destruct m as [|d m].
    + simpl. now apply Hp.
    + apply IH; [discriminate | exact Hm].
Qed.

(** *** Reading a successful match backwards *)

Lemma one_inv (cs : cset) (k : cont) prev s cp x :
  one cs k prev s cp = Some x ->
  exists c r, s = String c r /\ mem cs c = true /\ k (Some c) r (consume c cp) = Some x.
Proof.
  unfold one. destruct s as [|c r]; [discriminate |].
  destruct (mem cs c) eqn:Hc; [| discriminate].
  intros H. now exists c, r.
Qed.

Lemma starLazy_inv (cs : cset) (k : cont) prev s cp x :
  starLazy cs k prev s cp = Some x ->
  exists m r, s = m ++ r /\ Str.all (mem cs) m = true
              /\ k (lastOr prev m) r (consumeAll m cp) = Some x.
Proof.
  revert prev cp. induction s as [|c t IH]; intros prev cp; cbn [starLazy].
  - destruct (k prev "" cp) eqn:Hk; [| discriminate].
    intros E. inversion E; subst. now exists "", "".
  - destruct (k prev (String c t) cp) eqn:Hk.
    + intros E. inversion E; subst. now exists "", (String c t).
    + destruct (mem cs c) eqn:Hc; [| discriminate].
      intros H. apply IH in H as (m & r & -> & Hm & H).
      exists (String c m), r. simpl. now rewrite Hc, Hm.
Qed.

Lemma times_inv (n : nat) (cs : cset) (k : cont) prev s cp x :
  times n cs k prev s cp = Some x ->
  exists m r, s = m ++ r /\ String.length m = n /\ Str.all (mem cs) m = true
              /\ k (lastOr prev m) r (consumeAll m cp) = Some x.
Proof.
  revert prev s cp. induction n as [|n IH]; intros prev s cp; cbn [times].
  - intros H. now exists "", s.
  - intros H. apply one_inv in H as (c & r & -> & Hc & H).
    apply IH in H as (m & r' & -> & Hl & Hm & H).
    exists (String c m), r'. simpl. now rewrite Hc, Hm, Hl.
Qed.

Lemma scan_inv (k : cont) prev s x :
  scan k prev s = Some x ->
  exists pre r, s = pre ++ r /\ k (lastOr prev pre) r noCaps = Some x.
Proof.
  revert prev. induction s as [|c t IH]; intros prev; cbn [scan].
  - destruct (k prev "" noCaps) eqn:Hk; [| discriminate].
    intros E. inversion E; subst. now exists "", "".
  - destruct (k prev (String c t) noCaps) eqn:Hk.
    + intros E. inversion E; subst. now exists "", (String c t).
    + intros H. apply IH in H as (pre & r & -> & H).
      now exists (String c pre), r.
Qed.

(** *** Running the matcher forwards *)

Lemma lit_run (p : string) (k : cont) prev r cp :
  fold_right step k (lit p) prev (p ++ r) cp = k (lastOr prev p) r (consumeAll p cp).
Proof.
  revert prev cp. induction p as [|c p IH]; intros prev cp; [reflexivity |].
  cbn [lit fold_right step one append mem]. rewrite Ascii.eqb_refl. apply IH.
Qed.

Lemma lit_inv (p : string) (k : cont) prev s cp x :
  fold_right step k (lit p) prev s cp = Some x ->
  exists r, s = p ++ r /\ k (lastOr prev p) r (consumeAll p cp) = Some x.
Proof.
  revert prev s cp. induction p as [|c p IH]; intros prev s cp H.
  - now exists s.
  - cbn [lit fold_right step] in H. apply one_inv in H as (c' & r & -> & Hc & H).
    simpl in Hc. apply Ascii.eqb_eq in Hc. subst c'.
    apply IH in H as (r' & -> & H). now exists r'.
Qed.

Lemma times_run (cs : cset) (k : cont) (m : string) prev r cp :
  Str.all (mem cs) m = true ->
  times (String.length m) cs k prev (m ++ r) cp = k (lastOr prev m) r (consumeAll m cp).
Proof.
  revert prev cp. induction m as [|c m IH]; intros prev cp Hm; [reflexivity |].
  simpl in Hm. apply andb_true_iff in Hm as [Hc Hm].
  cbn [String.length times one append]. rewrite Hc. now apply IH.
Qed.

(** A lazy star stops at the first place where the rest of the pattern
    succeeds: if the rest fails in front of every character of the class,
    the star reads the whole run. *)
Lemma starLazy_run (cs : cset) (k : cont) (m : string) prev r cp x :
  (forall prev' c s' cp', mem cs c = true -> k prev' (String c s') cp' = None) ->
  Str.all (mem cs) m = true ->
  k (lastOr prev m) r (consumeAll m cp) = Some x ->
  starLazy cs k prev (m ++ r) cp = Some x.
Proof.
  intros Hk. revert prev cp. induction m as [|c m IH]; intros prev cp Hm H.
  - simpl in *. destruct r; cbn [starLazy]; now rewrite H.
  - simpl in Hm. apply andb_true_iff in Hm as [Hc Hm].
    cbn [append starLazy]. rewrite (Hk prev c (m ++ r) cp Hc), Hc. now apply IH.
Qed.

End Captures.

Section CookiePattern.
Import Regex.

Lemma csrfCookiePattern_matcher :
  matcher csrfCookiePattern = step WordBoundary (fold_right step afterName (lit "csrf-token=")).
Proof. reflexivity. Qed.

Lemma mem_lowerOrHyphen (c : ascii) :
  mem (CClass [("a", "z"); ("-", "-")]%char) c = isLowerOrHyphen c.
Proof. destruct c as [[] [] [] [] [] [] [] []]; reflexivity. Qed.

Lemma mem_lowerHex (c : ascii) :
  mem (CClass [("0", "9"); ("a", "f")]%char) c = isLowerHex c.
Proof. destruct c as [[] [] [] [] [] [] [] []]; reflexivity. Qed.

Lemma all_ext (p q : ascii -> bool) (s : string) :
  (forall c, p c = q c) -> Str.all p s = Str.all q s.
Proof. intros H. induction s as [|c s IH]; simpl; [reflexivity | now rewrite H, IH]. Qed.

(** Whatever the pattern matches is a CSRF cookie of the expected shape,
    and the two groups are its provider and its token. *)
Lemma csrfCookie_sound (h : string) (m : list string) :
  exec csrfCookiePattern h = Some m ->
  exists p t, m = [p; t] /\ carriesCsrfCookie h p t.
Proof.
  unfold exec. rewrite csrfCookiePattern_matcher. intros H.
  apply Captures.scan_inv in H as (pre & r & -> & H).
  cbn [step] in H.
  destruct (xorb (isWordAt (lastOr None pre)) (isWordAt (next r))) eqn:Hb; [| discriminate].
  apply Captures.lit_inv in H as (r1 & -> & H).
  cbn [next isWordAt append] in Hb. change (isWord "c") with true in Hb.
  unfold afterName in H. cbn [fold_right step] in H.
  apply Captures.one_inv in H as (c & r2 & -> & Hc & H).
  apply Captures.starLazy_inv in H as (p' & r3 & -> & Hp & H).
  apply Captures.one_inv in H as (u & r4 & -> & Hu & H).
  apply Captures.times_inv in H as (t & post & -> & Hlen & Ht & H).
  destruct (xorb _ _) eqn:Hb2 in H; [| discriminate].
  unfold accept in H. injection H as Hm.
  repeat first [ rewrite Captures.closed_consumeAll in Hm
               | rewrite Captures.opened_consumeAll in Hm
               | progress cbn [closed opened consume option_map orElse app append] in Hm ].
  subst m.
  simpl in Hu. apply Ascii.eqb_eq in Hu. subst u.
  rewrite (all_ext _ _ _ mem_lowerOrHyphen) in Hp. rewrite mem_lowerOrHyphen in Hc.
  rewrite (all_ext _ _ _ mem_lowerHex) in Ht.
  exists (String c p'), t. split; [reflexivity |].
  exists pre, post. repeat split.
  - unfold lastChar. destruct (isWordAt (lastOr None pre)); [discriminate Hb | reflexivity].
  - discriminate.
  - simpl. now rewrite Hc, Hp.
  - exact Hlen.
  - exact Ht.
  - cbn [next] in Hb2.
    assert (Hw : isWordAt (lastOr (Some "_"%char) t) = true).
    { apply (Captures.lastOr_word isLowerHex); auto using isLowerHex_isWord.
      intros ->. discriminate Hlen. }
    rewrite Hw in Hb2. destruct (isWordAt (next post)); [discriminate Hb2 | reflexivity].
Qed.

(** A Cookie header that opens with the cookie the initiator issued is
    recognised, with that provider and that token. *)
Lemma csrfCookie_complete (p t post : string) :
  p <> "" -> Str.all isLowerOrHyphen p = true ->
  String.length t = 32 -> Str.all isLowerHex t = true ->
  isWordAt (next post) = false ->
  exec csrfCookiePattern ("csrf-token=" ++ p ++ "_" ++ t ++ post) = Some [p; t].
Proof.
  intros Hne Hp Hlen Ht Hpost.
  destruct p as [|c p]; [now contradiction Hne |].
  simpl in Hp. apply andb_true_iff in Hp as [Hc Hp].
  unfold exec. rewrite csrfCookiePattern_matcher.
  assert (Hgo : step WordBoundary (fold_right step afterName (lit "csrf-token=")) None
                  ("csrf-token=" ++ String c p ++ "_" ++ t ++ post) noCaps
                = Some [String c p; t]).
  { cbn [step]. change (xorb _ _) with true. cbn iota.
    rewrite Captures.lit_run. unfold afterName. cbn [fold_right step].
    cbn [append one]. rewrite mem_lowerOrHyphen, Hc.
    apply Captures.starLazy_run.
    - intros prev' d s' cp' Hd. rewrite mem_lowerOrHyphen in Hd.
      cbn [one mem]. now rewrite (isLowerOrHyphen_not_underscore d Hd).
    - now rewrite (all_ext _ _ _ mem_lowerOrHyphen).
    - cbn [append one mem]. rewrite Ascii.eqb_refl.
      rewrite <- Hlen, Captures.times_run
        by now rewrite (all_ext _ _ _ mem_lowerHex).
      assert (Hw : isWordAt (lastOr (Some "_"%char) t) = true).
      { apply (Captures.lastOr_word isLowerHex); auto using isLowerHex_isWord.
        intros ->. discriminate Hlen. }
      rewrite Hw, Hpost. cbn [xorb]. unfold accept.
      repeat first [ rewrite Captures.closed_consumeAll
                   | rewrite Captures.opened_consumeAll
                   | progress cbn [closed opened consume option_map orElse app append] ].
      reflexivity. }
  cbn [append] in Hgo |- *. cbn [scan]. now rewrite Hgo.
Qed.

End CookiePattern.

(* ================================================================= *)
(** ** The token of the initiator *)

Section Token.

Variable rnd : N.

Lemma replaceAllChar_append (c : ascii) (a b : string) :
  Str.replaceAllChar c "" (a ++ b) = Str.replaceAllChar c "" a ++ Str.replaceAllChar c "" b.
Proof.
  induction a as [|x a IH]; [reflexivity |].
  cbn [append Str.replaceAllChar]. destruct (Ascii.eqb x c); simpl; now rewrite IH.
Qed.

Lemma replaceAllChar_digits (start len : nat) :
  Str.replaceAllChar "-" "" (uuidDigits rnd start len) = uuidDigits rnd start len.
Proof.
  unfold uuidDigits. induction (seq start len) as [|i l IH]; [reflexivity |].
  cbn [map Str.ofList Str.replaceAllChar]. now rewrite hexLower_not_hyphen, IH.
Qed.

Lemma all_digits (start len : nat) : Str.all isLowerHex (uuidDigits rnd start len) = true.
Proof.
  unfold uuidDigits. rewrite all_ofList. apply forallb_forall.
  intros c Hc. apply in_map_iff in Hc as (i & <- & _). apply hexLower_isLowerHex.
Qed.

Lemma length_digits (start len : nat) : String.length (uuidDigits rnd start len) = len.
Proof. unfold uuidDigits. now rewrite length_ofList, length_map, length_seq. Qed.

(** The hyphens go, the 32 digits stay. *)
Lemma csrfTokenOf_digits :
  csrfTokenOf rnd =
  uuidDigits rnd 0 8 ++ uuidDigits rnd 8 4 ++ uuidDigits rnd 12 4
    ++ uuidDigits rnd 16 4 ++ uuidDigits rnd 20 12.
Proof.
  unfold csrfTokenOf, randomUUID.
  rewrite !replaceAllChar_append, !replaceAllChar_digits. reflexivity.
Qed.

Lemma csrfTokenOf_length : String.length (csrfTokenOf rnd) = 32.
Proof. rewrite csrfTokenOf_digits, !length_append, !length_digits. reflexivity. Qed.

Lemma csrfTokenOf_hex : Str.all isLowerHex (csrfTokenOf rnd) = true.
Proof. rewrite csrfTokenOf_digits, !all_append, !all_digits. reflexivity. Qed.

End Token.

(* ================================================================= *)
(** ** The redirect and the [Response] constructor *)

Section Redirect.

Lemma all_impl (p q : ascii -> bool) (s : string) :
  (forall c, p c = true -> q c = true) -> Str.all p s = true -> Str.all q s = true.
Proof.
  intros H. induction s as [|c s IH]; [reflexivity |]. simpl. intros Hs.
  apply andb_true_iff in Hs as [Hc Hs]. now rewrite (H c Hc), (IH Hs).
Qed.

Lemma isLowerHex_headerSafe (c : ascii) : isLowerHex c = true -> headerSafe c = true.
Proof. destruct c as [[] [] [] [] [] [] [] []]; vm_compute; congruence. Qed.

Lemma isLowerHex_not_whitespace (c : ascii) :
  isLowerHex c = true -> isHttpWhitespace c = false.
Proof. destruct c as [[] [] [] [] [] [] [] []]; vm_compute; congruence. Qed.

Lemma formEncodeChar_safe (c : ascii) : Str.all headerSafe (formEncodeChar c) = true.
Proof. destruct c as [[] [] [] [] [] [] [] []]; vm_compute; reflexivity. Qed.

Lemma formEncode_safe (s : string) : Str.all headerSafe (formEncode s) = true.
Proof.
  induction s as [|c s IH]; [reflexivity |].
  cbn [formEncode]. now rewrite all_append, formEncodeChar_safe, IH.
Qed.

Lemma lastOr_append (prev : option ascii) (a b : string) :
  lastOr prev (a ++ b) = lastOr (lastOr prev a) b.
Proof. revert prev. induction a as [|c a IH]; intros prev; simpl; auto. Qed.

Lemma lastOr_all (p : ascii -> bool) (prev : option ascii) (m : string) :
  m <> "" -> Str.all p m = true -> exists d, lastOr prev m = Some d /\ p d = true.
Proof.
  revert prev. induction m as [|c m IH]; intros prev Hne Hall; [now contradiction Hne |].
  simpl in Hall. apply andb_true_iff in Hall as [Hc Hm]. simpl.
  destruct m as [|c' m]; [now exists c |].
  apply IH; [discriminate | exact Hm].
Qed.

Lemma stripEnd_keep (ws : ascii -> bool) (v : string) (d : ascii) :
  lastOr None v = Some d -> ws d = false -> stripEnd ws v = v.
Proof.
  induction v as [|c r IH]; [discriminate |].
  intros Hl Hd. cbn [stripEnd]. destruct r as [|c' r'].
  - simpl in Hl. injection Hl as ->. simpl. now rewrite Hd.
  - rewrite (IH Hl Hd). simpl. now rewrite andb_false_r.
Qed.

(** A value that neither starts nor ends with white space is stored as
    it is. *)
Lemma normalize_keep (c d : ascii) (r : string) :
  isHttpWhitespace c = false ->
  lastOr None (String c r) = Some d -> isHttpWhitespace d = false ->
  normalizeHeaderValue (String c r) = String c r.
Proof.
  intros Hc Hl Hd. unfold normalizeHeaderValue. cbn [stripStart]. rewrite Hc.
  now apply (stripEnd_keep _ _ d).
Qed.

(** The constructor on the two headers of the redirect: it throws
    exactly when the host name brings NUL, LF or CR into [Location]. *)
Lemma redirect_completion (host mid p tok : string) :
  Str.all headerSafe mid = true ->
  Str.all isLowerHex tok = true -> String.length tok = 32 ->
  p = "github" \/ p = "gitlab" ->
  newResponse "" 302
    [("Location", "https://" ++ host ++ mid ++ tok); ("Set-Cookie", issuedCookie p tok)]
  = if Str.all headerSafe host
    then Returned (redirectResponse ("https://" ++ host ++ mid ++ tok) (issuedCookie p tok))
    else Thrown.
Proof.
  intros Hmid Hhex Hlen Hp.
  assert (Hne : tok <> "") by (intros ->; discriminate Hlen).
  assert (HL : normalizeHeaderValue ("https://" ++ host ++ mid ++ tok)
               = "https://" ++ host ++ mid ++ tok).
  { destruct (lastOr_all isLowerHex (lastOr (Some "h"%char) ("ttps://" ++ host ++ mid))
                tok Hne Hhex) as (d & Hd & Hx).
    apply (normalize_keep "h" d ("ttps://" ++ host ++ mid ++ tok)); [reflexivity | |].
    - cbn [lastOr]. rewrite <- Hd, <- lastOr_append. now rewrite !append_assoc.
    - now apply isLowerHex_not_whitespace. }
  assert (HC : normalizeHeaderValue (issuedCookie p tok) = issuedCookie p tok).
  { apply (normalize_keep "c" "e" ("srf-token=" ++ p ++ "_" ++ tok ++ "; "
                                     ++ "HttpOnly; Path=/; Max-Age=600; SameSite=Lax; Secure"));
      [reflexivity | | reflexivity].
    cbn [lastOr].
    replace ("srf-token=" ++ p ++ "_" ++ tok ++ "; "
               ++ "HttpOnly; Path=/; Max-Age=600; SameSite=Lax; Secure")
      with (("srf-token=" ++ p ++ "_" ++ tok ++ "; ")
              ++ "HttpOnly; Path=/; Max-Age=600; SameSite=Lax; Secure")
      by now rewrite !append_assoc.
    rewrite lastOr_append. reflexivity. }
  assert (HvC : Str.all headerSafe (issuedCookie p tok) = true).
  { unfold issuedCookie. rewrite !all_append.
    rewrite (all_impl _ _ tok isLowerHex_headerSafe Hhex).
    destruct Hp as [-> | ->]; reflexivity. }
  assert (HvL : Str.all headerSafe ("https://" ++ host ++ mid ++ tok)
                = Str.all headerSafe host).
  { rewrite !all_append, Hmid, (all_impl _ _ tok isLowerHex_headerSafe Hhex).
    cbn. now rewrite andb_true_r. }
  unfold newResponse, validHeaderValue. cbn [forallb snd fst map].
  rewrite HL, HC, HvL, HvC, !andb_true_r.
  destruct (Str.all headerSafe host); reflexivity.
Qed.

(** The constructor on the headers of a page never throws and adds
    nothing: [outputHTML] is its result. *)
Lemma outputHTML_constructed (o : OutputHTMLOptions) (env : option CloudflareEnv) :
  newResponse (body (outputHTML o env)) 200
    [("Content-Type", "text/html;charset=UTF-8");
     ("Set-Cookie",
      "csrf-token=deleted; HttpOnly; Max-Age=0; Path=/; SameSite=Lax" ++ secureAttr env)]
  = Returned (outputHTML o env).
Proof.
  unfold outputHTML. cbn [body]. unfold secureAttr.
  destruct (insecureCookies env); reflexivity.
Qed.

Variables (rnd : N) (request : Request) (env : CloudflareEnv).

Lemma handleAuth_github_redirect :
  searchParamsGet "provider" (searchParams request) = Some "github" ->
  domainRejected (ALLOWED_DOMAINS env)
    (searchParamsGet "site_id" (searchParams request)) = false ->
  hasCredentials env "github" = true ->
  handleAuth rnd request env
  = if Str.all headerSafe (hostOf env "github")
    then Returned
           (redirectResponse
              ("https://" ++ hostOf env "github"
                 ++ ("/login/oauth/authorize?client_id="
                       ++ formEncode (orElse (GITHUB_CLIENT_ID env) "")
                       ++ "&scope=repo%2Cuser&state=") ++ csrfTokenOf rnd)
              (issuedCookie "github" (csrfTokenOf rnd)))
    else Thrown.
Proof.
  intros Hq Hd Hc. cbn in Hc. rewrite (handleAuth_github _ _ rnd Hq Hd), Hc. cbv zeta.
  fold (csrfTokenOf rnd).
  pose proof (csrfTokenOf_hex rnd) as Hhex. pose proof (csrfTokenOf_length rnd) as Hlen.
  rewrite <- (redirect_completion (hostOf env "github") _ "github" (csrfTokenOf rnd));
    auto.
  - unfold searchParamsToString. cbn [map fst snd Str.join].
    rewrite (formEncode_lowerHex _ Hhex).
    change (formEncode "client_id") with "client_id".
    change (formEncode "scope") with "scope".
    change (formEncode "state") with "state".
    change (formEncode "repo,user") with "repo%2Cuser".
    change (hostOf env "github") with (orElse (GITHUB_HOSTNAME env) "github.com").
    rewrite !append_assoc. reflexivity.
  - rewrite !all_append, formEncode_safe. reflexivity.
Qed.

Lemma handleAuth_gitlab_redirect :
  searchParamsGet "provider" (searchParams request) = Some "gitlab" ->
  domainRejected (ALLOWED_DOMAINS env)
    (searchParamsGet "site_id" (searchParams request)) = false ->
  hasCredentials env "gitlab" = true ->
  handleAuth rnd request env
  = if Str.all headerSafe (hostOf env "gitlab")
    then Returned
           (redirectResponse
              ("https://" ++ hostOf env "gitlab"
                 ++ ("/oauth/authorize?client_id="
                       ++ formEncode (orElse (GITLAB_CLIENT_ID env) "")
                       ++ "&redirect_uri=" ++ formEncode (origin request ++ "/callback")
                       ++ "&response_type=code&scope=api&state=") ++ csrfTokenOf rnd)
              (issuedCookie "gitlab" (csrfTokenOf rnd)))
    else Thrown.
Proof.
  intros Hq Hd Hc. cbn in Hc. rewrite (handleAuth_gitlab _ _ rnd Hq Hd), Hc. cbv zeta.
  fold (csrfTokenOf rnd).
  pose proof (csrfTokenOf_hex rnd) as Hhex. pose proof (csrfTokenOf_length rnd) as Hlen.
  rewrite <- (redirect_completion (hostOf env "gitlab") _ "gitlab" (csrfTokenOf rnd));
    auto.
  - unfold searchParamsToString. cbn [map fst snd Str.join].
    rewrite (formEncode_lowerHex _ Hhex).
    change (formEncode "client_id") with "client_id".
    change (formEncode "redirect_uri") with "redirect_uri".
    change (formEncode "response_type") with "response_type".
    change (formEncode "code") with "code".
    change (formEncode "scope") with "scope".
    change (formEncode "api") with "api".
    change (formEncode "state") with "state".
    change (hostOf env "gitlab") with (orElse (GITLAB_HOSTNAME env) "gitlab.com").
    rewrite !append_assoc. reflexivity.
  - rewrite !all_append, !formEncode_safe. reflexivity.
Qed.

(** What [handleAuth] does: the redirect (or the throw of its
    constructor) when a redirect is due, a page otherwise. *)
Lemma handleAuth_cases :
  (exists p location,
      (p = "github" \/ p = "gitlab")
      /\ searchParamsGet "provider" (searchParams request) = Some p
      /\ domainRejected (ALLOWED_DOMAINS env)
           (searchParamsGet "site_id" (searchParams request)) = false
      /\ hasCredentials env p = true
      /\ handleAuth rnd request env
         = if Str.all headerSafe (hostOf env p)
           then Returned (redirectResponse location (issuedCookie p (csrfTokenOf rnd)))
           else Thrown)
  \/ ((forall p, (p = "github" \/ p = "gitlab") ->
                 searchParamsGet "provider" (searchParams request) = Some p ->
                 domainRejected (ALLOWED_DOMAINS env)
                   (searchParamsGet "site_id" (searchParams request)) = false ->
                 hasCredentials env p = false)
      /\ exists o, handleAuth rnd request env = Returned (outputHTML o (Some env))).
Proof.
  destruct (includes supportedProviders
              (orElse (searchParamsGet "provider" (searchParams request)) "")) eqn:Hp.
  2:{ right. split.
      - intros p [-> | ->] Hq; rewrite Hq in Hp; discriminate Hp.
      - rewrite (handleAuth_unsupported _ _ rnd Hp). eexists. reflexivity. }
  destruct (searchParamsGet "provider" (searchParams request)) as [p |] eqn:Hq;
    [| discriminate Hp].
  cbn [orElse] in Hp.
  destruct (domainRejected (ALLOWED_DOMAINS env)
              (searchParamsGet "site_id" (searchParams request))) eqn:Hd.
  { right. split.
    - intros q _ _ H. discriminate H.
    - rewrite (handleAuth_rejected _ _ rnd p Hq Hp Hd). eexists. reflexivity. }
  destruct (supported_cases p Hp) as [-> | [-> | ->]].
  - destruct (hasCredentials env "github") eqn:Hc.
    + left. exists "github". eexists. repeat split; auto.
      now apply handleAuth_github_redirect.
    + right. split.
      * intros q [-> | ->] E _; [exact Hc | discriminate E].
      * cbn in Hc. rewrite (handleAuth_github _ _ rnd Hq Hd), Hc. eexists. reflexivity.
  - destruct (hasCredentials env "gitlab") eqn:Hc.
    + left. exists "gitlab". eexists. repeat split; auto.
      now apply handleAuth_gitlab_redirect.
    + right. split.
      * intros q [-> | ->] E _; [discriminate E | exact Hc].
      * cbn in Hc. rewrite (handleAuth_gitlab _ _ rnd Hq Hd), Hc. eexists. reflexivity.
  - right. split.
    + intros q [-> | ->] E; discriminate E.
    + rewrite (handleAuth_bitbucket _ _ rnd Hq Hd). eexists. reflexivity.
Qed.

End Redirect.

(* ================================================================= *)
(** ** C7: the GitHub redirect *)




(* ================================================================= *)
(** ** C2: the attributes of the issued cookie *)

(** Whatever the configuration says, a redirect of [handleAuth] carries
    the cookie of [issuedCookie], which ends in [; Secure]. *)
Lemma handleAuth_redirect_cookie (rnd : N) (request : Request) (env : CloudflareEnv) :
  statusOf (handleAuth rnd request env) = Some 302 ->
  exists p, headerOf "Set-Cookie" (handleAuth rnd request env)
            = Some (issuedCookie p (csrfTokenOf rnd)).
Proof.
  destruct (handleAuth_cases rnd request env)
    as [(p & location & _ & _ & _ & _ & H) | (_ & o & H)]; rewrite H.
  - destruct (Str.all headerSafe (hostOf env p)); [| discriminate].
    intros _. now exists p.
  - discriminate.
Qed.

(** C2 (the code departs from it).  With [INSECURE_COOKIES=1] the page
    renderer drops [Secure] from the cookie it sets, and the redirect of
    [handleAuth], on the same configuration, still sends [Secure]. *)
Theorem issued_cookie_keeps_Secure :
  INSECURE_COOKIES (Sample.withInsecure (Some "1") Sample.env) = Some "1"
  /\ headerOf "Set-Cookie"
       (handleAuth Sample.rnd (Sample.authRequest "github" "a.example.com")
          (Sample.withInsecure (Some "1") Sample.env))
     = Some ("csrf-token=github_0000000027e44b3286bec9b16e398115; "
               ++ "HttpOnly; Path=/; Max-Age=600; SameSite=Lax; Secure")
  /\ headerOf "Set-Cookie"
       (handleAuth Sample.rnd (Sample.authRequest "github" "evil.com")
          (Sample.withInsecure (Some "1") Sample.env))
     = Some "csrf-token=deleted; HttpOnly; Max-Age=0; Path=/; SameSite=Lax".
Proof. repeat split; vm_compute; reflexivity. Qed.

(* ================================================================= *)
(** ** C3: the headers of every rendered page *)

Lemma handleAuth_page_or_redirect (rnd : N) (request : Request) (env : CloudflareEnv) :
  (handleAuth rnd request env = Thrown
   /\ exists p, (p = "github" \/ p = "gitlab")
                /\ searchParamsGet "provider" (searchParams request) = Some p
                /\ hasCredentials env p = true
                /\ Str.all headerSafe (hostOf env p) = false)
  \/ statusOf (handleAuth rnd request env) = Some 302
  \/ exists o, handleAuth rnd request env = Returned (outputHTML o (Some env)).
Proof.
  destruct (handleAuth_cases rnd request env)
    as [(p & location & Hp & Hq & _ & Hc & H) | (_ & o & H)]; rewrite H.
  - destruct (Str.all headerSafe (hostOf env p)) eqn:Hh; [right; left; reflexivity |].
    left. split; [reflexivity |]. now exists p.
  - right. right. now exists o.
Qed.

Lemma handleCallback_page (fetch : Fetch) (request : Request) (env : CloudflareEnv) :
  exists o, handleCallback fetch request env = outputHTML o (Some env).
Proof.
  unfold handleCallback, exchangeToken, errorPage, bind, finish. split_conditions;
    eexists; reflexivity.
Qed.

(** C3.  Every response of [outputHTML] has status 200, the header
    [Content-Type: text/html;charset=UTF-8] and a [Set-Cookie] header that
    deletes [csrf-token] with [Max-Age=0], to which [; Secure] is added
    unless [INSECURE_COOKIES] is ["1"]; these are its only headers.  Every
    response of [handleCallback], and every response of [handleAuth] other
    than the 302 redirect, is such a page ([handleAuth] gives no response
    at all when the constructor of its redirect throws, which it does
    only for [github] or [gitlab] with credentials and NUL, LF or CR in
    the host name). *)
Theorem page_headers :
  (forall (o : OutputHTMLOptions) (env : option CloudflareEnv),
      status (outputHTML o env) = 200
      /\ header "Content-Type" (outputHTML o env) = Some "text/html;charset=UTF-8"
      /\ header "Set-Cookie" (outputHTML o env)
         = Some ("csrf-token=deleted; HttpOnly; Max-Age=0; Path=/; SameSite=Lax"
                   ++ match env with
                      | Some (Build_CloudflareEnv _ _ _ _ _ _ _ _ _ _ (Some "1")) => ""
                      | _ => "; Secure"
                      end)
      /\ List.length (headers (outputHTML o env)) = 2)
  /\ (forall (rnd : N) (request : Request) (env : CloudflareEnv),
         (handleAuth rnd request env = Thrown
          /\ exists p, (p = "github" \/ p = "gitlab")
                       /\ searchParamsGet "provider" (searchParams request) = Some p
                       /\ hasCredentials env p = true
                       /\ Str.all headerSafe (hostOf env p) = false)
         \/ statusOf (handleAuth rnd request env) = Some 302
         \/ exists o, handleAuth rnd request env = Returned (outputHTML o (Some env)))
  /\ (forall (fetch : Fetch) (request : Request) (env : CloudflareEnv),
         exists o, handleCallback fetch request env = outputHTML o (Some env)).
Proof.
  split; [| split].
  - intros o env. repeat split.
    unfold header, outputHTML. cbn [headers String.eqb Ascii.eqb Bool.eqb].
    f_equal. f_equal. unfold secureAttr, insecureCookies.
    destruct env as [[? ? ? ? ? ? ? ? ? ? [v |]] |]; cbn [INSECURE_COOKIES]; auto.
    destruct (String.eqb_spec v "1") as [-> | Hv]; [reflexivity |].
    destruct v as [|[[] [] [] [] [] [] [] []] [|? ?]]; try reflexivity.
    now contradiction Hv.
  - apply handleAuth_page_or_redirect.
  - apply handleCallback_page.
Qed.

(* ================================================================= *)
(** ** C9: providers outside the supported set *)

(** C9.  When the [provider] parameter of the initiator, or the provider
    segment of the callback's cookie, is absent or is not one of
    [github], [gitlab], [bitbucket], the handler answers the
    [UNSUPPORTED_BACKEND] page; that page names the provider [unknown],
    and its headers are the content type and the cookie deletion with
    [Max-Age=0], nothing else. *)
Theorem unsupported_provider :
  (forall (rnd : N) (request : Request) (env : CloudflareEnv),
      includes supportedProviders
        (orElse (searchParamsGet "provider" (searchParams request)) "") = false ->
      handleAuth rnd request env = Returned (unsupportedBackendPage env))
  /\ (forall (fetch : Fetch) (request : Request) (env : CloudflareEnv),
         includes supportedProviders (orElse (cookieProviderSegment request) "") = false ->
         handleCallback fetch request env = unsupportedBackendPage env)
  /\ (forall env : CloudflareEnv,
         status (unsupportedBackendPage env) = 200
         /\ body (unsupportedBackendPage env)
            = page "unknown" "error"
                (Json.stringify
                   (JObj [("provider", JStr "unknown");
                          ("error",
                           JStr "Your Git backend is not supported by the authenticator.");
                          ("errorCode", JStr "UNSUPPORTED_BACKEND")]))
         /\ embeds (errorCodeText "UNSUPPORTED_BACKEND") (unsupportedBackendPage env) = true
         /\ headers (unsupportedBackendPage env)
            = [("Content-Type", "text/html;charset=UTF-8");
               ("Set-Cookie",
                "csrf-token=deleted; HttpOnly; Max-Age=0; Path=/; SameSite=Lax"
                  ++ (if insecureCookies (Some env) then "" else "; Secure"))]).
Proof.
  split; [| split].
  - intros rnd request env H. now apply handleAuth_unsupported.
  - intros fetch request env H.
    now apply (handleCallback_unsupported fetch request env (cookieProviderSegment request)).
  - intros env. repeat split.
Qed.

(** An unknown provider name on the first leg, no cookie on the second. *)
Lemma unsupported_provider_witness :
  handleAuth Sample.rnd (Sample.authRequest "svn" "a.example.com") Sample.env
  = Returned (unsupportedBackendPage Sample.env)
  /\ handleCallback (Sample.answering NoResponse)
       (Sample.callbackRequest [("code", "abc"); ("state", Sample.token)] None) Sample.env
     = unsupportedBackendPage Sample.env.
Proof.
  split.
  - apply (proj1 unsupported_provider). reflexivity.
  - apply (proj1 (proj2 unsupported_provider)). reflexivity.
Defined.

(* ================================================================= *)
(** ** C4: a callback without [code] or without [state] *)



(* ================================================================= *)
(** ** C8: Bitbucket *)

Lemma cookie_token_nonempty (request : Request) (p T : string) :
  cookieMatch request = Some [p; T] -> truthyStr (Some T) = true.
Proof.
  unfold cookieMatch. destruct (cookieHeader request) as [h |]; [| discriminate].
  intros H. apply csrfCookie_sound in H as (p' & t' & E & (_ & _ & _ & _ & _ & _ & Hl & _)).
  injection E as <- <-. destruct T; [discriminate Hl | reflexivity].
Qed.

(** C8.  For [bitbucket], [handleAuth] past the allow-list and
    [handleCallback] past the [code]/[state] and CSRF tests answer an
    error page that carries [UNSUPPORTED_BACKEND] and the message that
    Bitbucket is not yet supported, for every configuration; and no
    response of either handler for [bitbucket] carries
    [MISCONFIGURED_CLIENT]. *)
Theorem bitbucket_unsupported (rnd : N) (fetch : Fetch) (request : Request)
    (env : CloudflareEnv) :
  (searchParamsGet "provider" (searchParams request) = Some "bitbucket" ->
   (domainRejected (ALLOWED_DOMAINS env)
      (searchParamsGet "site_id" (searchParams request)) = false ->
    handleAuth rnd request env
    = Returned (errorPage (Some bitbucket) "Bitbucket OAuth is not yet supported."
                  "UNSUPPORTED_BACKEND" env)
    /\ shows (errorCodeText "UNSUPPORTED_BACKEND") (handleAuth rnd request env) = true
    /\ bodyOf (handleAuth rnd request env)
       = Some (page "bitbucket" "error"
                 (Json.stringify
                    (JObj [("provider", JStr "bitbucket");
                           ("error", JStr "Bitbucket OAuth is not yet supported.");
                           ("errorCode", JStr "UNSUPPORTED_BACKEND")]))))
   /\ shows (errorCodeText "MISCONFIGURED_CLIENT") (handleAuth rnd request env) = false)
  /\ (forall T : string,
         cookieMatch request = Some ["bitbucket"; T] ->
         (truthyStr (searchParamsGet "code" (searchParams request)) = true ->
          searchParamsGet "state" (searchParams request) = Some T ->
          handleCallback fetch request env
          = errorPage (Some bitbucket) "Bitbucket OAuth is not yet supported."
              "UNSUPPORTED_BACKEND" env
          /\ embeds (errorCodeText "UNSUPPORTED_BACKEND")
               (handleCallback fetch request env) = true
          /\ body (handleCallback fetch request env)
             = page "bitbucket" "error"
                 (Json.stringify
                    (JObj [("provider", JStr "bitbucket");
                           ("error", JStr "Bitbucket OAuth is not yet supported.");
                           ("errorCode", JStr "UNSUPPORTED_BACKEND")])))
         /\ embeds (errorCodeText "MISCONFIGURED_CLIENT")
              (handleCallback fetch request env) = false).
Proof.
  split.
  - intros Hq. split.
    + intros Hd. rewrite (handleAuth_bitbucket _ _ rnd Hq Hd). repeat split.
    + destruct (domainRejected (ALLOWED_DOMAINS env)
                  (searchParamsGet "site_id" (searchParams request))) eqn:Hd.
      * rewrite (handleAuth_rejected _ _ rnd "bitbucket" Hq eq_refl Hd). reflexivity.
      * rewrite (handleAuth_bitbucket _ _ rnd Hq Hd). reflexivity.
  - intros T Hc.
    rewrite (handleCallback_recognized fetch request env "bitbucket" T Hc eq_refl).
    cbv zeta. rewrite (cookie_token_nonempty request _ _ Hc). split.
    + intros Hcode Hstate. rewrite Hcode, Hstate. cbn [truthyStr orElse].
      assert (Ht : truthyStr (Some T) = true) by apply (cookie_token_nonempty request _ _ Hc).
      destruct T as [|c T]; [discriminate Ht |].
      cbn [truthyStr andb negb]. rewrite String.eqb_refl. repeat split.
    + split_conditions; reflexivity.
Qed.

(** Bitbucket credentials present, both legs. *)
Lemma bitbucket_unsupported_witness :
  truthyStr (BITBUCKET_CLIENT_ID Sample.env) = true
  /\ truthyStr (BITBUCKET_CLIENT_SECRET Sample.env) = true
  /\ shows (errorCodeText "UNSUPPORTED_BACKEND")
       (handleAuth Sample.rnd (Sample.authRequest "bitbucket" "a.example.com") Sample.env)
     = true
  /\ embeds (errorCodeText "UNSUPPORTED_BACKEND")
       (handleCallback (Sample.answering NoResponse)
          (Sample.callbackRequest [("code", "abc"); ("state", Sample.token)]
             (Some ("csrf-token=bitbucket_" ++ Sample.token)))
          (Sample.withAllowed None Sample.env))
     = true
  /\ embeds (errorCodeText "MISCONFIGURED_CLIENT")
       (handleCallback (Sample.answering NoResponse)
          (Sample.callbackRequest [("code", "abc"); ("state", Sample.token)]
             (Some ("csrf-token=bitbucket_" ++ Sample.token)))
          (Sample.withAllowed None Sample.env))
     = false.
Proof.
  split; [reflexivity |]. split; [reflexivity |].
  pose proof (bitbucket_unsupported Sample.rnd (Sample.answering NoResponse)
                (Sample.authRequest "bitbucket" "a.example.com") Sample.env) as [Hauth _].
  pose proof (bitbucket_unsupported Sample.rnd (Sample.answering NoResponse)
                (Sample.callbackRequest [("code", "abc"); ("state", Sample.token)]
                   (Some ("csrf-token=bitbucket_" ++ Sample.token)))
                (Sample.withAllowed None Sample.env)) as [_ Hcb].
  destruct (Hauth eq_refl) as [Hpage _].
  destruct (Hpage ltac:(vm_compute; reflexivity)) as (_ & Hshow & _).
  destruct (Hcb Sample.token ltac:(vm_compute; reflexivity)) as [Hub Hmis].
  destruct (Hub eq_refl eq_refl) as (_ & Hemb & _).
  repeat split; assumption.
Defined.

(* ================================================================= *)
(** ** C1: the CSRF comparison *)

(** With [code] and [state] present, [handleCallback] is the comparison
    of [state] with the cookie's token. *)
Lemma csrf_comparison_core (fetch : Fetch) (request : Request) (env : CloudflareEnv)
    (p T code state : string) :
  cookieMatch request = Some [p; T] ->
  includes supportedProviders p = true ->
  searchParamsGet "code" (searchParams request) = Some code -> code <> "" ->
  searchParamsGet "state" (searchParams request) = Some state ->
  (state = T ->
   handleCallback fetch request env
   = exchangeToken fetch request env p (asProvider (Some p)) code)
  /\ (state <> T -> state <> "" ->
      handleCallback fetch request env
      = errorPage (Some (asProvider (Some p)))
          "Potential CSRF attack detected. Authentication flow aborted."
          "CSRF_DETECTED" env).
Proof.
  intros Hc Hp Hcode Hne Hstate.
  rewrite (handleCallback_recognized fetch request env p T Hc Hp). cbv zeta.
  rewrite Hcode, Hstate. cbn [orElse].
  apply truthyStr_Some in Hne. rewrite Hne.
  rewrite (cookie_token_nonempty request p T Hc). cbn [andb].
  split.
  - intros ->. rewrite (cookie_token_nonempty request p T Hc), String.eqb_refl.
    reflexivity.
  - intros Hdiff Hs. apply truthyStr_Some in Hs. rewrite Hs.
    apply String.eqb_neq in Hdiff. rewrite Hdiff. reflexivity.
Qed.




(* ================================================================= *)
(** ** C10: which Cookie headers are recognised *)

(** C10 (as amended).  Either the Cookie header holds, between two word
    boundaries, [csrf-token=], a non-empty run of lowercase letters and
    hyphens, an underscore and 32 lowercase hexadecimal digits, and these
    two runs are the provider and the token [handleCallback] works with;
    or [handleCallback] treats the cookie as absent: it answers the
    [UNSUPPORTED_BACKEND] page with provider [unknown], which does not
    carry [CSRF_DETECTED]. *)
Theorem cookie_recognition (fetch : Fetch) (request : Request) (env : CloudflareEnv) :
  (exists h p t, cookieHeader request = Some h
                 /\ carriesCsrfCookie h p t
                 /\ cookieMatch request = Some [p; t])
  \/ (cookieMatch request = None
      /\ handleCallback fetch request env = unsupportedBackendPage env
      /\ embeds (errorCodeText "CSRF_DETECTED") (handleCallback fetch request env) = false).
Proof.
  destruct (cookieMatch request) as [m |] eqn:Hm.
  - left. unfold cookieMatch in Hm.
    destruct (cookieHeader request) as [h |] eqn:Hh; [| discriminate Hm].
    destruct (csrfCookie_sound h m Hm) as (p & t & -> & Hshape).
    now exists h, p, t.
  - right. split; [reflexivity |].
    assert (Hpage : handleCallback fetch request env = unsupportedBackendPage env).
    { apply (handleCallback_unsupported fetch request env None).
      - now rewrite Hm.
      - reflexivity. }
    rewrite Hpage. split; reflexivity.
Qed.

(** Tokens of 31 and of 33 digits, an uppercase digit, a letter that is
    no digit: the cookie counts as absent. *)
Example cookie_wrong_tokens :
  Forall (fun cookie =>
            handleCallback (Sample.answering NoResponse)
              (Sample.callbackRequest [("code", "abc"); ("state", "ffff")] (Some cookie))
              Sample.env
            = unsupportedBackendPage Sample.env)
    ["csrf-token=github_0123456789abcdef0123456789abcde";
     "csrf-token=github_0123456789abcdef0123456789abcdef0";
     "csrf-token=github_0123456789abcdef0123456789abcdeF";
     "csrf-token=github_0123456789abcdef0123456789abcdeg";
     "csrf-token=github_0123456789abcdef0123456789abcdef_x"].
Proof. repeat constructor. Qed.

(** C10 as worded fails: a token segment that goes on after its 32
    digits with a hyphen is 34 characters long and not all hexadecimal,
    and the cookie is recognised all the same, by the first 32; with a
    different [state] the page is [CSRF_DETECTED]. *)
Lemma cookie_longer_token_recognised :
  String.length (Sample.token ++ "-x") = 34
  /\ Str.all isLowerHex (Sample.token ++ "-x") = false
  /\ cookieMatch (Sample.callbackRequest [("code", "abc"); ("state", "ffff")]
                    (Some ("csrf-token=github_" ++ Sample.token ++ "-x")))
     = Some ["github"; Sample.token]
  /\ handleCallback (Sample.answering NoResponse)
       (Sample.callbackRequest [("code", "abc"); ("state", "ffff")]
          (Some ("csrf-token=github_" ++ Sample.token ++ "-x"))) Sample.env
     = errorPage (Some github)
         "Potential CSRF attack detected. Authentication flow aborted."
         "CSRF_DETECTED" Sample.env.
Proof. repeat split; vm_compute; reflexivity. Qed.

(* ================================================================= *)
(** ** C6: the answer of the token endpoint *)

(** The exchange for GitHub and GitLab, once the credentials are there:
    one request, and the page follows from its outcome alone. *)
Lemma exchangeToken_outcome (fetch : Fetch) (request : Request) (env : CloudflareEnv)
    (p code : string) (cp : Provider) (outcome : Fetched) :
  (p = "github" /\ truthyStr (GITHUB_CLIENT_ID env) = true
   /\ truthyStr (GITHUB_CLIENT_SECRET env) = true)
  \/ (p = "gitlab" /\ truthyStr (GITLAB_CLIENT_ID env) = true
      /\ truthyStr (GITLAB_CLIENT_SECRET env) = true) ->
  (forall url payload, fetch url payload = outcome) ->
  exchangeToken fetch request env p cp code =
  match outcome with
  | NoResponse =>
      errorPage (Some cp) "Failed to request an access token. Please try again later."
        "TOKEN_REQUEST_FAILED" env
  | Unparseable =>
      errorPage (Some cp) "Server responded with malformed data. Please try again later."
        "MALFORMED_RESPONSE" env
  | Parsed data =>
      match Json.getProp data "access_token", Json.getProp data "error" with
      | Some access_token, Some err =>
          outputHTML {| provider := Some cp;
                        token := Some (Json.coalesce access_token (JStr ""));
                        error := Some (Json.coalesce err (JStr ""));
                        errorCode := None |} (Some env)
      | _, _ =>
          errorPage (Some cp) "Server responded with malformed data. Please try again later."
            "MALFORMED_RESPONSE" env
      end
  end.
Proof.
  intros [(-> & Hid & Hsec) | (-> & Hid & Hsec)] Hnet;
    unfold exchangeToken; cbn [String.eqb Ascii.eqb Bool.eqb];
    rewrite Hid, Hsec; cbn [andb bind finish fst snd negb]; rewrite Hnet;
    destruct outcome as [| | data]; try reflexivity;
    destruct (Json.getProp data "access_token"), (Json.getProp data "error"); reflexivity.
Qed.

(** C6 (as amended).  Let the callback reach the token request (cookie
    for [github] or [gitlab] with its credentials configured, [code]
    present, [state] equal to the cookie's token) and let the request
    obtain a response.  If the body cannot be parsed, the page is
    [MALFORMED_RESPONSE]: it is in state [error] and its payload is the
    provider, the message of malformed data and that code under
    [errorCode].  If it parses to an object without
    [access_token] whose [error] is a non-empty string, the page is in
    state [error] and its payload is the provider and that string under
    [error], with no [errorCode] field. *)
Theorem token_endpoint_answer (fetch : Fetch) (request : Request) (env : CloudflareEnv)
    (p T code : string) (outcome : Fetched) :
  cookieMatch request = Some [p; T] ->
  searchParamsGet "code" (searchParams request) = Some code -> code <> "" ->
  searchParamsGet "state" (searchParams request) = Some T ->
  (p = "github" /\ truthyStr (GITHUB_CLIENT_ID env) = true
   /\ truthyStr (GITHUB_CLIENT_SECRET env) = true)
  \/ (p = "gitlab" /\ truthyStr (GITLAB_CLIENT_ID env) = true
      /\ truthyStr (GITLAB_CLIENT_SECRET env) = true) ->
  (forall url payload, fetch url payload = outcome) ->
  (outcome = Unparseable ->
   handleCallback fetch request env
   = errorPage (Some (asProvider (Some p)))
       "Server responded with malformed data. Please try again later."
       "MALFORMED_RESPONSE" env
   /\ embeds (errorCodeText "MALFORMED_RESPONSE") (handleCallback fetch request env) = true
   /\ status (handleCallback fetch request env) = 200
   /\ body (handleCallback fetch request env)
      = page p "error"
          (Json.stringify
             (JObj [("provider", JStr p);
                    ("error",
                     JStr "Server responded with malformed data. Please try again later.");
                    ("errorCode", JStr "MALFORMED_RESPONSE")])))
  /\ (forall (props : list (string * json)) (e : string),
         outcome = Parsed (JObj props) ->
         Json.assoc "access_token" props = None ->
         Json.assoc "error" props = Some (JStr e) ->
         e <> "" ->
         handleCallback fetch request env
         = outputHTML {| provider := Some (asProvider (Some p)); token := Some (JStr "");
                         error := Some (JStr e); errorCode := None |} (Some env)
         /\ body (handleCallback fetch request env)
            = page p "error"
                (Json.stringify (JObj [("provider", JStr p); ("error", JStr e)]))).
Proof.
  intros Hc Hcode Hne Hstate Hcred Hnet.
  assert (Hp : includes supportedProviders p = true).
  { destruct Hcred as [(-> & _) | (-> & _)]; reflexivity. }
  assert (Hgo : handleCallback fetch request env
                = exchangeToken fetch request env p (asProvider (Some p)) code).
  { now apply (proj1 (csrf_comparison_core fetch request env p T code T
                        Hc Hp Hcode Hne Hstate)). }
  rewrite Hgo, (exchangeToken_outcome fetch request env p code _ outcome Hcred Hnet).
  split.
  - intros ->. destruct Hcred as [(-> & _) | (-> & _)]; repeat split.
  - intros props e -> Ha He Hne'. cbn [Json.getProp]. rewrite Ha, He.
    cbn [Json.coalesce]. split; [reflexivity |].
    destruct e as [|c e]; [now contradiction Hne' |].
    destruct Hcred as [(-> & _) | (-> & _)]; reflexivity.
Qed.

(** GitHub answers something that is no JSON, and then
    [{ error: bad_verification_code }]. *)
Lemma token_endpoint_answer_witness :
  cookieMatch (Sample.callbackRequest [("code", "abc"); ("state", Sample.token)]
                 (Some ("csrf-token=github_" ++ Sample.token)))
  = Some ["github"; Sample.token]
  /\ embeds (errorCodeText "MALFORMED_RESPONSE")
       (handleCallback (Sample.answering Unparseable)
          (Sample.callbackRequest [("code", "abc"); ("state", Sample.token)]
             (Some ("csrf-token=github_" ++ Sample.token))) Sample.env) = true
  /\ body (handleCallback
             (Sample.answering (Parsed (JObj [("error", JStr "bad_verification_code")])))
             (Sample.callbackRequest [("code", "abc"); ("state", Sample.token)]
                (Some ("csrf-token=github_" ++ Sample.token))) Sample.env)
     = page "github" "error"
         (Json.stringify (JObj [("provider", JStr "github");
                                ("error", JStr "bad_verification_code")])).
Proof.
  split; [vm_compute; reflexivity |]. split.
  - apply (proj1 (token_endpoint_answer
                    (Sample.answering Unparseable)
                    (Sample.callbackRequest [("code", "abc"); ("state", Sample.token)]
                       (Some ("csrf-token=github_" ++ Sample.token)))
                    Sample.env "github" Sample.token "abc" Unparseable
                    ltac:(vm_compute; reflexivity) eq_refl ltac:(discriminate) eq_refl
                    (or_introl (conj eq_refl (conj eq_refl eq_refl)))
                    (fun _ _ => eq_refl))
             eq_refl).
  - apply (proj2 (token_endpoint_answer
                    (Sample.answering
                       (Parsed (JObj [("error", JStr "bad_verification_code")])))
                    (Sample.callbackRequest [("code", "abc"); ("state", Sample.token)]
                       (Some ("csrf-token=github_" ++ Sample.token)))
                    Sample.env "github" Sample.token "abc"
                    (Parsed (JObj [("error", JStr "bad_verification_code")]))
                    ltac:(vm_compute; reflexivity) eq_refl ltac:(discriminate) eq_refl
                    (or_introl (conj eq_refl (conj eq_refl eq_refl)))
                    (fun _ _ => eq_refl))
             [("error", JStr "bad_verification_code")] "bad_verification_code"
             eq_refl eq_refl eq_refl ltac:(discriminate)).
Defined.

(** C6 as worded fails on an empty [error]: the body carries an [error]
    field and no [access_token], and the page is in state [success], with
    an empty token and no error in its payload. *)
Lemma empty_error_renders_success :
  Json.assoc "error" [("error", JStr "")] = Some (JStr "")
  /\ Json.assoc "access_token" [("error", JStr "")] = None
  /\ body (handleCallback (Sample.answering (Parsed (JObj [("error", JStr "")])))
             (Sample.callbackRequest [("code", "abc"); ("state", Sample.token)]
                (Some ("csrf-token=github_" ++ Sample.token))) Sample.env)
     = page "github" "success"
         (Json.stringify (JObj [("provider", JStr "github"); ("token", JStr "")])).
Proof. repeat split; vm_compute; reflexivity. Qed.

(** A string without quotes, backslashes and control characters stands
    between the quotes of the payload as it is. *)
Lemma quote_plain (e : string) :
  Str.all (fun c => Nat.leb 32 (code c) && negb (Ascii.eqb c dquote)
                    && negb (Ascii.eqb c backslash)) e = true ->
  Json.quote e = String dquote (e ++ Str.char dquote).
Proof.
  intros H. unfold Json.quote. f_equal. f_equal.
  induction e as [|c e IH]; [reflexivity |].
  simpl in H. apply andb_true_iff in H as [Hc He].
  cbn [Json.quoteBody]. rewrite (IH He).
  assert (Hq : Json.quoteChar c = Str.char c).
  { clear - Hc. destruct c as [[] [] [] [] [] [] [] []]; vm_compute in Hc |- *;
      congruence. }
  now rewrite Hq.
Qed.

(* ================================================================= *)
(** ** Further properties: the router and the cookies of a response *)

(** The router answers 404 exactly when the method is not [GET] or the
    path is none of the five routes, compared as they are written; the
    404 has an empty body and one header, the content type the
    constructor gives an empty string body. *)
Theorem route_not_found (rnd : N) (fetch : Fetch) (request : Request)
    (env : CloudflareEnv) :
  (statusOf (route rnd fetch request env) = Some 404 <->
   ~ (method request = "GET"
      /\ In (pathname request)
           ["/auth"; "/oauth/authorize"; "/oauth/auth"; "/callback"; "/oauth/redirect"]))
  /\ (statusOf (route rnd fetch request env) = Some 404 ->
      route rnd fetch request env
      = Returned {| status := 404;
                    headers := [("Content-Type", "text/plain;charset=UTF-8")];
                    body := "" |}).
Proof.
  unfold route.
  destruct (String.eqb_spec (method request) "GET") as [Hm | Hm]; cbn [andb].
  2:{ split; [| reflexivity]. split; [intros _ [H _]; now contradiction Hm | reflexivity]. }
  destruct (includes ["/auth"; "/oauth/authorize"; "/oauth/auth"] (pathname request))
    eqn:Ha.
  - assert (Hs : statusOf (handleAuth rnd request env) <> Some 404).
    { destruct (handleAuth_page_or_redirect rnd request env) as [[H _] | [H | [o H]]];
        rewrite H; discriminate. }
    split; [| intros H; now contradiction Hs]. split; [intros H; now contradiction Hs |].
    intros H. exfalso. apply H. split; [exact Hm |].
    unfold includes in Ha. apply existsb_exists in Ha as (x & Hin & Hx).
    apply String.eqb_eq in Hx. subst x. simpl in Hin |- *. tauto.
  - destruct (includes ["/callback"; "/oauth/redirect"] (pathname request)) eqn:Hc.
    + assert (Hs : statusOf (Returned (handleCallback fetch request env)) <> Some 404).
      { destruct (handleCallback_page fetch request env) as [o H]. rewrite H. discriminate. }
      split; [| intros H; now contradiction Hs]. split; [intros H; now contradiction Hs |].
      intros H. exfalso. apply H. split; [exact Hm |].
      unfold includes in Hc. apply existsb_exists in Hc as (x & Hin & Hx).
      apply String.eqb_eq in Hx. subst x. simpl in Hin |- *. tauto.
    + split; [| reflexivity]. split; [| reflexivity].
      intros _ [_ Hin].
      assert (Hno : forall l, includes l (pathname request) = false ->
                              ~ In (pathname request) l).
      { intros l Hl Hi. unfold includes in Hl.
        assert (Ht : existsb (String.eqb (pathname request)) l = true).
        { apply existsb_exists. exists (pathname request). split; [exact Hi |].
          apply String.eqb_refl. }
        congruence. }
      apply Hno in Ha, Hc. simpl in Hin, Ha, Hc. tauto.
Qed.

Lemma route_not_found_witness :
  ~ (method (Sample.authRequest "github" "a.example.com") = "GET"
     /\ In "/Auth"
          ["/auth"; "/oauth/authorize"; "/oauth/auth"; "/callback"; "/oauth/redirect"])
  /\ route Sample.rnd (Sample.answering NoResponse)
       {| method := "GET"; origin := "https://auth.example.com"; pathname := "/Auth";
          searchParams := [("provider", "github")]; cookieHeader := None |} Sample.env
     = Returned {| status := 404;
                   headers := [("Content-Type", "text/plain;charset=UTF-8")];
                   body := "" |}.
Proof.
  assert (H : ~ ("GET" = "GET"
                 /\ In "/Auth" ["/auth"; "/oauth/authorize"; "/oauth/auth"; "/callback";
                                "/oauth/redirect"])).
  { intros [_ Hin]. simpl in Hin. repeat destruct Hin as [Hin | Hin]; try discriminate Hin.
    exact Hin. }
  split; [exact H |].
  apply (proj2 (route_not_found Sample.rnd (Sample.answering NoResponse)
                  {| method := "GET"; origin := "https://auth.example.com";
                     pathname := "/Auth"; searchParams := [("provider", "github")];
                     cookieHeader := None |} Sample.env)).
  apply (proj1 (route_not_found Sample.rnd (Sample.answering NoResponse)
                  {| method := "GET"; origin := "https://auth.example.com";
                     pathname := "/Auth"; searchParams := [("provider", "github")];
                     cookieHeader := None |} Sample.env)).
  exact H.
Defined.


(* ================================================================= *)
(** ** Further properties: the initiator *)







(* ================================================================= *)
(** ** Further properties: [escapeRegExp] and the allow-list *)

Lemma scan_complete (k : Regex.cont) (prev : option ascii) (pre r : string) :
  k (lastOr prev pre) r Regex.noCaps <> None -> Regex.scan k prev (pre ++ r) <> None.
Proof.
  revert prev. induction pre as [|c pre IH]; intros prev H.
  - simpl in H |- *. destruct r; cbn [Regex.scan];
      destruct (k prev _ Regex.noCaps); congruence.
  - cbn [append Regex.scan].
    destruct (k prev (String c (pre ++ r)) Regex.noCaps); [discriminate |].
    now apply IH.
Qed.

(** [escapeRegExp] turns any text into a pattern that stands for that
    text: the pattern is read without error, as one literal character
    per character of the text, and it matches an input exactly when the
    text occurs in it. *)
Theorem escapeRegExp_literal (s d : string) :
  Regex.RegExp (escapeRegExp s) = Some (Regex.lit s)
  /\ (Regex.exec (Regex.lit s) d <> None <-> occursIn s d).
Proof.
  split.
  - unfold Regex.RegExp.
    pose proof (AllowList.lex_escape s "") as H. rewrite append_empty_r in H.
    rewrite H. cbn [Regex.lex]. rewrite app_nil_r.
    pose proof (AllowList.parse_lits s [] (fun x => x)) as P.
    rewrite app_nil_r in P. rewrite P. cbn [Regex.parse option_map].
    now rewrite app_nil_r.
  - unfold Regex.exec, Regex.matcher, occursIn. split.
    + intros H. destruct (Regex.scan _ None d) as [x |] eqn:Hs; [| now contradiction H].
      apply Captures.scan_inv in Hs as (pre & r & -> & Hk).
      apply Captures.lit_inv in Hk as (post & -> & _). now exists pre, post.
    + intros (pre & post & ->). apply scan_complete.
      rewrite Captures.lit_run. discriminate.
Qed.

Lemma wildcardMatch_empty (entry : string) : wildcardMatch entry "" <-> Str.trim entry = "".
Proof.
  unfold wildcardMatch. destruct (splitAtStar (Str.trim entry)) as [[pre post] |] eqn:Hs.
  - split.
    + intros (mid & Hne & _ & E). destruct pre; [| discriminate E].
      destruct mid; [now contradiction Hne | discriminate E].
    + intros E. rewrite E in Hs. discriminate Hs.
  - split; intros H; now rewrite H.
Qed.

(** A request without [site_id] passes a non-empty allow-list only
    through an empty entry: it goes past the check exactly when the list
    is unset or empty, or one of its entries is empty or white space (as
    after a trailing comma). *)
Theorem missing_site_id (rnd : N) (request : Request) (env : CloudflareEnv) (p : string) :
  searchParamsGet "provider" (searchParams request) = Some p ->
  includes supportedProviders p = true ->
  searchParamsGet "site_id" (searchParams request) = None ->
  (shows (errorCodeText "UNSUPPORTED_DOMAIN") (handleAuth rnd request env) = false <->
   orElse (ALLOWED_DOMAINS env) "" = ""
   \/ exists entry, In entry (Str.split "," (orElse (ALLOWED_DOMAINS env) ""))
                    /\ Str.trim entry = "").
Proof.
  intros Hq Hp Hs.
  pose proof (domainRejected_spec (ALLOWED_DOMAINS env)
                (searchParamsGet "site_id" (searchParams request))) as Hspec.
  rewrite Hs in Hspec. cbn [orElse] in Hspec.
  assert (Hsame : (orElse (ALLOWED_DOMAINS env) "" = ""
                   \/ exists entry, In entry (Str.split "," (orElse (ALLOWED_DOMAINS env) ""))
                                    /\ wildcardMatch entry "")
                  <-> (orElse (ALLOWED_DOMAINS env) "" = ""
                       \/ exists entry,
                            In entry (Str.split "," (orElse (ALLOWED_DOMAINS env) ""))
                            /\ Str.trim entry = "")).
  { split; (intros [H | (entry & Hin & H)]; [now left | right; exists entry; split; auto]);
      now apply wildcardMatch_empty. }
  rewrite <- Hsame, <- Hspec.
  destruct (domainRejected (ALLOWED_DOMAINS env) None) eqn:Hd.
  - rewrite <- Hs in Hd. rewrite (handleAuth_rejected _ _ rnd p Hq Hp Hd).
    destruct (supported_cases p Hp) as [-> | [-> | ->]]; split; intros H; discriminate H.
  - rewrite <- Hs in Hd. rewrite (handleAuth_proceeds rnd _ _ _ Hq Hp Hd).
    split; reflexivity.
Qed.

Lemma missing_site_id_witness :
  shows (errorCodeText "UNSUPPORTED_DOMAIN")
    (handleAuth Sample.rnd
       {| method := "GET"; origin := "https://auth.example.com"; pathname := "/auth";
          searchParams := [("provider", "github")]; cookieHeader := None |}
       (Sample.withAllowed (Some "a.example.com,") Sample.env)) = false.
Proof.
  apply (proj2 (missing_site_id Sample.rnd
                  {| method := "GET"; origin := "https://auth.example.com";
                     pathname := "/auth"; searchParams := [("provider", "github")];
                     cookieHeader := None |}
                  (Sample.withAllowed (Some "a.example.com,") Sample.env) "github"
                  eq_refl eq_refl eq_refl)).
  right. exists "". split; [right; left; reflexivity | reflexivity].
Defined.

(* ================================================================= *)
(** ** Further properties: the token request and its answer *)

Lemma hasCredentials_cases (env : CloudflareEnv) (p : string) :
  hasCredentials env p = true ->
  (p = "github" /\ truthyStr (GITHUB_CLIENT_ID env) = true
   /\ truthyStr (GITHUB_CLIENT_SECRET env) = true)
  \/ (p = "gitlab" /\ truthyStr (GITLAB_CLIENT_ID env) = true
      /\ truthyStr (GITLAB_CLIENT_SECRET env) = true).
Proof.
  unfold hasCredentials.
  destruct (String.eqb_spec p "github") as [-> | _].
  - intros H. apply andb_true_iff in H. left. tauto.
  - destruct (String.eqb_spec p "gitlab") as [-> | _]; [| discriminate].
    intros H. apply andb_true_iff in H. right. tauto.
Qed.

Lemma handleCallback_exchange (fetch : Fetch) (request : Request) (env : CloudflareEnv)
    (p T code : string) :
  exchangeReady request env p T code ->
  handleCallback fetch request env
  = exchangeToken fetch request env p (asProvider (Some p)) code.
Proof.
  intros (Hc & Hcred & Hcode & Hne & Hstate).
  assert (Hp : includes supportedProviders p = true).
  { destruct (hasCredentials_cases env p Hcred) as [(-> & _) | (-> & _)]; reflexivity. }
  now apply (proj1 (csrf_comparison_core fetch request env p T code T
                      Hc Hp Hcode Hne Hstate)).
Qed.

Lemma exchangeToken_github (fetch : Fetch) (request : Request) (env : CloudflareEnv)
    (cp : Provider) (code : string) :
  hasCredentials env "github" = true ->
  exchangeToken fetch request env "github" cp code
  = renderFetched env cp
      (fetch ("https://" ++ orElse (GITHUB_HOSTNAME env) "github.com"
                 ++ "/login/oauth/access_token")
         (Json.stringify
            (JObj [("code", JStr code);
                   ("client_id", JStr (orElse (GITHUB_CLIENT_ID env) ""));
                   ("client_secret", JStr (orElse (GITHUB_CLIENT_SECRET env) ""))]))).
Proof.
  intros H. cbn in H. unfold exchangeToken. cbn [String.eqb Ascii.eqb Bool.eqb].
  rewrite H. cbn [bind finish fst snd negb].
  destruct (fetch _ _) as [| | data]; try reflexivity.
  cbn [renderFetched].
  destruct (Json.getProp data "access_token"), (Json.getProp data "error"); reflexivity.
Qed.

Lemma exchangeToken_gitlab (fetch : Fetch) (request : Request) (env : CloudflareEnv)
    (cp : Provider) (code : string) :
  hasCredentials env "gitlab" = true ->
  exchangeToken fetch request env "gitlab" cp code
  = renderFetched env cp
      (fetch ("https://" ++ orElse (GITLAB_HOSTNAME env) "gitlab.com" ++ "/oauth/token")
         (Json.stringify
            (JObj [("code", JStr code);
                   ("client_id", JStr (orElse (GITLAB_CLIENT_ID env) ""));
                   ("client_secret", JStr (orElse (GITLAB_CLIENT_SECRET env) ""));
                   ("grant_type", JStr "authorization_code");
                   ("redirect_uri", JStr (origin request ++ "/callback"))]))).
Proof.
  intros H. cbn in H. unfold exchangeToken. cbn [String.eqb Ascii.eqb Bool.eqb].
  rewrite H. cbn [bind finish fst snd negb].
  destruct (fetch _ _) as [| | data]; try reflexivity.
  cbn [renderFetched].
  destruct (Json.getProp data "access_token"), (Json.getProp data "error"); reflexivity.
Qed.

(** Under a network that gives one answer, a ready callback is the page
    of that answer. *)
Lemma handleCallback_answered (fetch : Fetch) (request : Request) (env : CloudflareEnv)
    (p T code : string) (outcome : Fetched) :
  exchangeReady request env p T code ->
  (forall url payload, fetch url payload = outcome) ->
  handleCallback fetch request env = renderFetched env (asProvider (Some p)) outcome.
Proof.
  intros Hr Hnet. rewrite (handleCallback_exchange fetch request env p T code Hr).
  destruct Hr as (_ & Hcred & _).
  destruct (hasCredentials_cases env p Hcred) as [(-> & _) | (-> & _)].
  - rewrite (exchangeToken_github fetch request env _ code Hcred). now rewrite Hnet.
  - rewrite (exchangeToken_gitlab fetch request env _ code Hcred). now rewrite Hnet.
Qed.

(** The token request.  A callback that is ready for the exchange puts
    one question to the network and its response is the page of the
    answer: for GitHub the URL is
    [https://<host>/login/oauth/access_token] and the body the JSON of
    [code], [client_id], [client_secret]; for GitLab the URL is
    [https://<host>/oauth/token] and the body has [grant_type] and
    [redirect_uri] (the request's origin and [/callback]) as well. *)
Theorem token_request (fetch : Fetch) (request : Request) (env : CloudflareEnv)
    (p T code : string) :
  exchangeReady request env p T code ->
  (p = "github" ->
   handleCallback fetch request env
   = renderFetched env github
       (fetch ("https://" ++ orElse (GITHUB_HOSTNAME env) "github.com"
                  ++ "/login/oauth/access_token")
          (Json.stringify
             (JObj [("code", JStr code);
                    ("client_id", JStr (orElse (GITHUB_CLIENT_ID env) ""));
                    ("client_secret", JStr (orElse (GITHUB_CLIENT_SECRET env) ""))]))))
  /\ (p = "gitlab" ->
      handleCallback fetch request env
      = renderFetched env gitlab
          (fetch ("https://" ++ orElse (GITLAB_HOSTNAME env) "gitlab.com" ++ "/oauth/token")
             (Json.stringify
                (JObj [("code", JStr code);
                       ("client_id", JStr (orElse (GITLAB_CLIENT_ID env) ""));
                       ("client_secret", JStr (orElse (GITLAB_CLIENT_SECRET env) ""));
                       ("grant_type", JStr "authorization_code");
                       ("redirect_uri", JStr (origin request ++ "/callback"))])))).
Proof.
  intros Hr. rewrite (handleCallback_exchange fetch request env p T code Hr).
  destruct Hr as (_ & Hcred & _). split; intros ->.
  - now apply exchangeToken_github.
  - now apply exchangeToken_gitlab.
Qed.

(** A network that answers the one URL of the sample and nothing else. *)
Lemma token_request_witness :
  handleCallback
    (answeringAt "https://github.com/login/oauth/access_token"
       (Parsed (JObj [("access_token", JStr "gho_abc")])))
    (Sample.callbackRequest [("code", "abc"); ("state", Sample.token)]
       (Some ("csrf-token=github_" ++ Sample.token))) Sample.env
  = renderFetched Sample.env github (Parsed (JObj [("access_token", JStr "gho_abc")])).
Proof.
  assert (Hr : exchangeReady
                 (Sample.callbackRequest [("code", "abc"); ("state", Sample.token)]
                    (Some ("csrf-token=github_" ++ Sample.token)))
                 Sample.env "github" Sample.token "abc").
  { unfold exchangeReady. repeat split; discriminate. }
  apply (proj1 (token_request
                  (answeringAt "https://github.com/login/oauth/access_token"
                     (Parsed (JObj [("access_token", JStr "gho_abc")])))
                  (Sample.callbackRequest [("code", "abc"); ("state", Sample.token)]
                     (Some ("csrf-token=github_" ++ Sample.token)))
                  Sample.env "github" Sample.token "abc" Hr) eq_refl).
Defined.

(** A callback that is not ready for the exchange never asks the
    network: its response is the same under every network. *)
Theorem callback_without_network (request : Request) (env : CloudflareEnv) :
  (forall p T code, ~ exchangeReady request env p T code) ->
  forall fetch fetch' : Fetch,
    handleCallback fetch request env = handleCallback fetch' request env.
Proof.
  intros Hno fetch fetch'.
  destruct (cookieMatch request) as [m |] eqn:Hm.
  2:{ rewrite (handleCallback_unsupported fetch request env None),
              (handleCallback_unsupported fetch' request env None);
        try reflexivity; now rewrite Hm. }
  assert (Hshape : exists p T, m = [p; T]).
  { unfold cookieMatch in Hm. destruct (cookieHeader request) as [h |]; [| discriminate Hm].
    destruct (csrfCookie_sound h m Hm) as (p & T & -> & _). now exists p, T. }
  destruct Hshape as (p & T & ->).
  destruct (includes supportedProviders p) eqn:Hp.
  2:{ rewrite (handleCallback_unsupported fetch request env (Some p)),
              (handleCallback_unsupported fetch' request env (Some p));
        try reflexivity; try exact Hp; now rewrite Hm. }
  rewrite !(handleCallback_recognized _ request env p T Hm Hp). cbv zeta.
  destruct (searchParamsGet "code" (searchParams request)) as [code |] eqn:Hcode;
    [| reflexivity].
  destruct (searchParamsGet "state" (searchParams request)) as [state |] eqn:Hstate;
    [| now rewrite andb_false_r].
  destruct (truthyStr (Some code) && truthyStr (Some state)) eqn:Hcs;
    cbn [negb]; [| reflexivity].
  apply andb_true_iff in Hcs as [Hc Hs].
  cbn [orElse].
  destruct (truthyStr (Some T) && String.eqb state T) eqn:Hst; cbn [negb]; [| reflexivity].
  apply andb_true_iff in Hst as [_ Hst]. apply String.eqb_eq in Hst. subst state.
  destruct (hasCredentials env p) eqn:Hcred.
  { exfalso. apply (Hno p T code). repeat split; auto. now apply truthyStr_Some. }
  destruct (supported_cases p Hp) as [-> | [-> | ->]]; cbn in Hcred.
  - unfold exchangeToken. cbn [String.eqb Ascii.eqb Bool.eqb]. now rewrite Hcred.
  - unfold exchangeToken. cbn [String.eqb Ascii.eqb Bool.eqb]. now rewrite Hcred.
  - reflexivity.
Qed.

Lemma callback_without_network_witness :
  handleCallback (Sample.answering NoResponse)
    (Sample.callbackRequest [("code", "abc"); ("state", Sample.token)] None) Sample.env
  = handleCallback (Sample.answering (Parsed (JObj [("access_token", JStr "gho_abc")])))
      (Sample.callbackRequest [("code", "abc"); ("state", Sample.token)] None) Sample.env.
Proof.
  apply callback_without_network.
  intros p T code (H & _). discriminate H.
Defined.



Lemma ready_provider_name (request : Request) (env : CloudflareEnv) (p T code : string) :
  exchangeReady request env p T code -> providerName (asProvider (Some p)) = p.
Proof.
  intros (_ & Hcred & _).
  destruct (hasCredentials_cases env p Hcred) as [(-> & _) | (-> & _)]; reflexivity.
Qed.





(** The success page.  When the answer is an object whose [access_token]
    is the string [t] and whose [error] is missing, [null] or empty, the
    page is in state [success] and its payload is the provider and the
    token [t], with no [error] and no [errorCode] field. *)
Theorem token_success (fetch : Fetch) (request : Request) (env : CloudflareEnv)
    (p T code t : string) (props : list (string * json)) :
  exchangeReady request env p T code ->
  (forall url payload, fetch url payload = Parsed (JObj props)) ->
  Json.assoc "access_token" props = Some (JStr t) ->
  Json.assoc "error" props = None \/ Json.assoc "error" props = Some JNull
  \/ Json.assoc "error" props = Some (JStr "") ->
  body (handleCallback fetch request env)
  = page p "success" (Json.stringify (JObj [("provider", JStr p); ("token", JStr t)]))
  /\ header "Set-Cookie" (handleCallback fetch request env)
     = Some ("csrf-token=deleted; HttpOnly; Max-Age=0; Path=/; SameSite=Lax"
               ++ (if insecureCookies (Some env) then "" else "; Secure")).
Proof.
  intros Hr Hnet Ht He.
  rewrite (handleCallback_answered fetch request env p T code _ Hr Hnet).
  pose proof (ready_provider_name request env p T code Hr) as Hn.
  cbn [renderFetched Json.getProp]. rewrite Ht.
  split; [| reflexivity].
  destruct He as [-> | [-> | ->]]; cbn; rewrite Hn; reflexivity.
Qed.

Lemma token_success_witness :
  body (handleCallback (Sample.answering (Parsed (JObj [("access_token", JStr "XYZ")])))
          (Sample.callbackRequest [("code", "abc"); ("state", Sample.token)]
             (Some ("csrf-token=github_" ++ Sample.token))) Sample.env)
  = page "github" "success"
      (Json.stringify (JObj [("provider", JStr "github"); ("token", JStr "XYZ")])).
Proof.
  assert (Hr : exchangeReady
                 (Sample.callbackRequest [("code", "abc"); ("state", Sample.token)]
                    (Some ("csrf-token=github_" ++ Sample.token)))
                 Sample.env "github" Sample.token "abc").
  { unfold exchangeReady. repeat split; discriminate. }
  apply (proj1 (token_success (Sample.answering (Parsed (JObj [("access_token", JStr "XYZ")])))
                  _ _ _ _ _ "XYZ" [("access_token", JStr "XYZ")] Hr
                  (fun _ _ => eq_refl) eq_refl (or_introl eq_refl))).
Defined.

(** An error wins over a token.  When the answer is an object whose
    [error] is truthy (a non-empty string, or any number but zero,
    [true], an array, an object), the page is in state [error] and its
    payload is the provider and that value under [error]: whatever
    [access_token] the answer carries is left out, and there is no
    [errorCode]. *)
Theorem error_over_token (fetch : Fetch) (request : Request) (env : CloudflareEnv)
    (p T code : string) (props : list (string * json)) (err : json) :
  exchangeReady request env p T code ->
  (forall url payload, fetch url payload = Parsed (JObj props)) ->
  Json.assoc "error" props = Some err ->
  Json.truthy err = true ->
  body (handleCallback fetch request env)
  = page p "error" (Json.stringify (JObj [("provider", JStr p); ("error", err)])).
Proof.
  intros Hr Hnet He Htruthy.
  rewrite (handleCallback_answered fetch request env p T code _ Hr Hnet).
  pose proof (ready_provider_name request env p T code Hr) as Hn.
  cbn [renderFetched Json.getProp]. rewrite He.
  assert (Hc : Json.coalesce (Some err) (JStr "") = err).
  { destruct err; try reflexivity. discriminate Htruthy. }
  rewrite Hc. unfold outputHTML, contentOf. cbn [provider error errorCode token body].
  cbn [truthyJson]. rewrite Htruthy, Hn. reflexivity.
Qed.

Lemma error_over_token_witness :
  body (handleCallback
          (Sample.answering
             (Parsed (JObj [("access_token", JStr "XYZ"); ("error", JStr "slow_down")])))
          (Sample.callbackRequest [("code", "abc"); ("state", Sample.token)]
             (Some ("csrf-token=github_" ++ Sample.token))) Sample.env)
  = page "github" "error"
      (Json.stringify (JObj [("provider", JStr "github"); ("error", JStr "slow_down")])).
Proof.
  assert (Hr : exchangeReady
                 (Sample.callbackRequest [("code", "abc"); ("state", Sample.token)]
                    (Some ("csrf-token=github_" ++ Sample.token)))
                 Sample.env "github" Sample.token "abc").
  { unfold exchangeReady. repeat split; discriminate. }
  apply (error_over_token
           (Sample.answering
              (Parsed (JObj [("access_token", JStr "XYZ"); ("error", JStr "slow_down")])))
           _ _ _ _ _ [("access_token", JStr "XYZ"); ("error", JStr "slow_down")]
           (JStr "slow_down") Hr (fun _ _ => eq_refl) eq_refl eq_refl).
Defined.

(** An answer with neither field renders a success without a token.
    When the body parses to a value other than [null] that has neither
    [access_token] nor [error] (an object without them, an array, a
    string, a number, a boolean), the page is in state [success] and its
    token is the empty string. *)
Theorem fieldless_body_success (fetch : Fetch) (request : Request) (env : CloudflareEnv)
    (p T code : string) (data : json) :
  exchangeReady request env p T code ->
  (forall url payload, fetch url payload = Parsed data) ->
  data <> JNull ->
  (forall props, data = JObj props ->
                 Json.assoc "access_token" props = None
                 /\ Json.assoc "error" props = None) ->
  body (handleCallback fetch request env)
  = page p "success" (Json.stringify (JObj [("provider", JStr p); ("token", JStr "")])).
Proof.
  intros Hr Hnet Hnull Hobj.
  rewrite (handleCallback_answered fetch request env p T code _ Hr Hnet).
  pose proof (ready_provider_name request env p T code Hr) as Hn.
  destruct data as [| b | t | s | l | props]; try (cbn; rewrite Hn; reflexivity).
  - now contradiction Hnull.
  - destruct (Hobj props eq_refl) as [Ha He].
    cbn [renderFetched Json.getProp]. rewrite Ha, He. cbn. rewrite Hn. reflexivity.
Qed.

Lemma fieldless_body_success_witness :
  body (handleCallback (Sample.answering (Parsed (JObj [])))
          (Sample.callbackRequest [("code", "abc"); ("state", Sample.token)]
             (Some ("csrf-token=github_" ++ Sample.token))) Sample.env)
  = page "github" "success"
      (Json.stringify (JObj [("provider", JStr "github"); ("token", JStr "")])).
Proof.
  assert (Hr : exchangeReady
                 (Sample.callbackRequest [("code", "abc"); ("state", Sample.token)]
                    (Some ("csrf-token=github_" ++ Sample.token)))
                 Sample.env "github" Sample.token "abc").
  { unfold exchangeReady. repeat split; discriminate. }
  apply (fieldless_body_success (Sample.answering (Parsed (JObj []))) _ _ _ _ _ (JObj [])
           Hr (fun _ _ => eq_refl)).
  - discriminate.
  - intros props E. injection E as <-. split; reflexivity.
Defined.

(* ================================================================= *)
(** ** Further properties: the two legs together *)

(** The round trip.  Let [handleAuth] redirect for the provider [p].
    A callback under the same configuration that brings the issued
    cookie back (alone or followed by further cookies), a non-empty
    [code] and the [state] of the redirect is ready for the exchange: it
    is turned away by none of the checks, and its response is the page of
    what the token endpoint answers. *)
Theorem flow_round_trip (rnd : N) (fetch : Fetch) (request callback : Request)
    (env : CloudflareEnv) (p code rest : string) :
  searchParamsGet "provider" (searchParams request) = Some p ->
  statusOf (handleAuth rnd request env) = Some 302 ->
  cookieHeader callback = Some ("csrf-token=" ++ p ++ "_" ++ csrfTokenOf rnd ++ rest) ->
  rest = "" \/ (exists more, rest = "; " ++ more) ->
  searchParamsGet "code" (searchParams callback) = Some code -> code <> "" ->
  searchParamsGet "state" (searchParams callback) = Some (csrfTokenOf rnd) ->
  exchangeReady callback env p (csrfTokenOf rnd) code
  /\ exists url payload,
       handleCallback fetch callback env
       = renderFetched env (asProvider (Some p)) (fetch url payload).
Proof.
  intros Hq Hs Hcookie Hrest Hcode Hne Hstate.
  destruct (handleAuth_cases rnd request env)
    as [(p' & location & Hp & Hq' & _ & Hcred & _) | (_ & o & Ho)].
  2:{ rewrite Ho in Hs. discriminate Hs. }
  rewrite Hq in Hq'. injection Hq' as <-.
  assert (Hr : exchangeReady callback env p (csrfTokenOf rnd) code).
  { unfold exchangeReady. repeat split; auto.
    unfold cookieMatch. rewrite Hcookie.
    apply csrfCookie_complete.
    - destruct Hp as [-> | ->]; discriminate.
    - destruct Hp as [-> | ->]; reflexivity.
    - apply csrfTokenOf_length.
    - apply csrfTokenOf_hex.
    - destruct Hrest as [-> | (more & ->)]; reflexivity. }
  split; [exact Hr |].
  rewrite (handleCallback_exchange fetch callback env p _ code Hr).
  destruct Hp as [-> | ->].
  - rewrite (exchangeToken_github fetch callback env _ code Hcred). eauto.
  - rewrite (exchangeToken_gitlab fetch callback env _ code Hcred). eauto.
Qed.

Lemma flow_round_trip_witness :
  body (handleCallback (Sample.answering (Parsed (JObj [("access_token", JStr "XYZ")])))
          (Sample.callbackRequest [("code", "abc"); ("state", csrfTokenOf Sample.rnd)]
             (Some ("csrf-token=github_" ++ csrfTokenOf Sample.rnd ++ "; theme=dark")))
          Sample.env)
  = page "github" "success"
      (Json.stringify (JObj [("provider", JStr "github"); ("token", JStr "XYZ")])).
Proof.
  destruct (flow_round_trip Sample.rnd
              (Sample.answering (Parsed (JObj [("access_token", JStr "XYZ")])))
              (Sample.authRequest "github" "a.example.com")
              (Sample.callbackRequest [("code", "abc"); ("state", csrfTokenOf Sample.rnd)]
                 (Some ("csrf-token=github_" ++ csrfTokenOf Sample.rnd ++ "; theme=dark")))
              Sample.env "github" "abc" "; theme=dark"
              eq_refl ltac:(vm_compute; reflexivity) eq_refl
              (or_intror (ex_intro _ "theme=dark" eq_refl))
              eq_refl ltac:(discriminate) eq_refl) as [_ (url & payload & H)].
  rewrite H. reflexivity.
Defined.

(* ================================================================= *)
(** ** Further properties: the validated environment of [env.ts] *)

Section ValidatedEnv.

Variable num : Type.
Variable Number : string -> option num.
Variable port3000 : num.

Lemma parse_fields (vars : Env.ProcessEnv) (env : Env.EnvType num) :
  Env.parse num Number port3000 vars = Some env ->
  Env.refinement num env = true
  /\ Env.ALLOWED_DOMAINS num env
     = orElse (Env.var_ALLOWED_DOMAINS vars) "localhost,cajuinasaogeraldo.com.br"
  /\ Env.GITHUB_CLIENT_ID num env = Env.var_GITHUB_CLIENT_ID vars
  /\ Env.GITHUB_CLIENT_SECRET num env = Env.var_GITHUB_CLIENT_SECRET vars
  /\ Env.GITLAB_CLIENT_ID num env = Env.var_GITLAB_CLIENT_ID vars
  /\ Env.GITLAB_CLIENT_SECRET num env = Env.var_GITLAB_CLIENT_SECRET vars
  /\ Env.INSECURE_COOKIES num env = orElse (Env.var_INSECURE_COOKIES vars) "0".
Proof.
  unfold Env.parse.
  destruct (Env.zEnumDefault _ _ (Env.var_NODE_ENV vars)) as [ne |]; [| discriminate].
  destruct (Env.zCoerceNumberDefault num Number port3000 (Env.var_PORT vars)) as [port |];
    [| discriminate].
  destruct (Env.zEnumDefault _ _ (Env.var_LOG_LEVEL vars)) as [ll |]; [| discriminate].
  cbv zeta. destruct (Env.refinement num _) eqn:Href; [| discriminate].
  intros E. injection E as <-. repeat split. exact Href.
Qed.

(** The schema accepts a [process.env] exactly when [NODE_ENV] and
    [LOG_LEVEL] are missing or in their lists, [PORT] is missing or a
    number, and one of the three providers has both a non-empty client id
    and a non-empty secret. *)
Theorem parse_accepts (vars : Env.ProcessEnv) :
  Env.parse num Number port3000 vars <> None <->
  (Env.var_NODE_ENV vars = None
   \/ exists s, Env.var_NODE_ENV vars = Some s
                /\ In s ["development"; "production"; "test"])
  /\ (Env.var_LOG_LEVEL vars = None
      \/ exists s, Env.var_LOG_LEVEL vars = Some s
                   /\ In s ["fatal"; "error"; "warn"; "info"; "debug"; "trace"])
  /\ (Env.var_PORT vars = None
      \/ exists s, Env.var_PORT vars = Some s /\ Number s <> None)
  /\ (truthyStr (Env.var_GITHUB_CLIENT_ID vars)
        && truthyStr (Env.var_GITHUB_CLIENT_SECRET vars) = true
      \/ truthyStr (Env.var_GITLAB_CLIENT_ID vars)
           && truthyStr (Env.var_GITLAB_CLIENT_SECRET vars) = true
      \/ truthyStr (Env.var_BITBUCKET_CLIENT_ID vars)
           && truthyStr (Env.var_BITBUCKET_CLIENT_SECRET vars) = true).
Proof.
  assert (Henum : forall l d v,
             Env.zEnumDefault l d v <> None
             <-> (v = None \/ exists s, v = Some s /\ In s l)).
  { intros l d [s |]; unfold Env.zEnumDefault.
    - destruct (includes l s) eqn:Hi; split.
      + intros _. right. exists s. split; [reflexivity |].
        unfold includes in Hi. apply existsb_exists in Hi as (x & Hin & Hx).
        apply String.eqb_eq in Hx. now subst.
      + discriminate.
      + intros H. exfalso. now apply H.
      + intros [H | (s' & E & Hin)]; [discriminate H |]. injection E as <-.
        assert (Ht : includes l s = true).
        { unfold includes. apply existsb_exists. exists s. split; [exact Hin |].
          apply String.eqb_refl. }
        congruence.
    - split; [now left | discriminate]. }
  assert (Hport : Env.zCoerceNumberDefault num Number port3000 (Env.var_PORT vars) <> None
                  <-> (Env.var_PORT vars = None
                       \/ exists s, Env.var_PORT vars = Some s /\ Number s <> None)).
  { unfold Env.zCoerceNumberDefault. destruct (Env.var_PORT vars) as [s |]; split.
    - intros H. right. now exists s.
    - intros [H | (s' & E & H)]; [discriminate H |]. now injection E as <-.
    - now left.
    - discriminate. }
  pose proof (Henum ["development"; "production"; "test"] "development"
                (Env.var_NODE_ENV vars)) as Hnode.
  pose proof (Henum ["fatal"; "error"; "warn"; "info"; "debug"; "trace"] "info"
                (Env.var_LOG_LEVEL vars)) as Hlog.
  rewrite <- Hnode, <- Hlog, <- Hport. clear Henum Hnode Hlog Hport.
  unfold Env.parse.
  destruct (Env.zEnumDefault _ _ (Env.var_NODE_ENV vars)) as [ne |];
    [| split; [intros H | intros (H & _)]; exfalso; now apply H].
  destruct (Env.zCoerceNumberDefault num Number port3000 (Env.var_PORT vars)) as [port |];
    [| split; [intros H | intros (_ & _ & H & _)]; exfalso; now apply H].
  destruct (Env.zEnumDefault _ _ (Env.var_LOG_LEVEL vars)) as [ll |];
    [| split; [intros H | intros (_ & H & _)]; exfalso; now apply H].
  cbv zeta. unfold Env.refinement.
  cbn [Env.GITHUB_CLIENT_ID Env.GITHUB_CLIENT_SECRET Env.GITLAB_CLIENT_ID
       Env.GITLAB_CLIENT_SECRET Env.BITBUCKET_CLIENT_ID Env.BITBUCKET_CLIENT_SECRET].
  destruct (truthyStr (Env.var_GITHUB_CLIENT_ID vars)
            && truthyStr (Env.var_GITHUB_CLIENT_SECRET vars));
    destruct (truthyStr (Env.var_GITLAB_CLIENT_ID vars)
              && truthyStr (Env.var_GITLAB_CLIENT_SECRET vars));
    destruct (truthyStr (Env.var_BITBUCKET_CLIENT_ID vars)
              && truthyStr (Env.var_BITBUCKET_CLIENT_SECRET vars));
    cbn [orb]; split;
    try solve [intros _; repeat split; try discriminate; auto];
    try discriminate.
  - intros H. exfalso. now apply H.
  - intros (_ & _ & _ & [H | [H | H]]); discriminate H.
Qed.

(** The allow-list is never unset for the handlers.  When
    [ALLOWED_DOMAINS] is missing from [process.env], the validated
    environment carries the default list, and a request with a known
    provider goes past the allow-list exactly when its [site_id] is
    [localhost] or [cajuinasaogeraldo.com.br]. *)
Theorem default_allow_list (vars : Env.ProcessEnv) (env : Env.EnvType num)
    (rnd : N) (request : Request) (p : string) :
  Env.parse num Number port3000 vars = Some env ->
  Env.var_ALLOWED_DOMAINS vars = None ->
  searchParamsGet "provider" (searchParams request) = Some p ->
  includes supportedProviders p = true ->
  (shows (errorCodeText "UNSUPPORTED_DOMAIN")
     (handleAuth rnd request (Env.forHandlers num env)) = false
   <-> searchParamsGet "site_id" (searchParams request) = Some "localhost"
       \/ searchParamsGet "site_id" (searchParams request)
          = Some "cajuinasaogeraldo.com.br").
Proof.
  intros Hparse Hvar Hq Hp.
  destruct (parse_fields vars env Hparse) as (_ & Hallowed & _).
  rewrite Hvar in Hallowed. cbn [orElse] in Hallowed.
  set (site := searchParamsGet "site_id" (searchParams request)).
  assert (Hrej : domainRejected (ALLOWED_DOMAINS (Env.forHandlers num env)) site = false
                 <-> site = Some "localhost" \/ site = Some "cajuinasaogeraldo.com.br").
  { rewrite domainRejected_spec. cbn [Env.forHandlers ALLOWED_DOMAINS orElse].
    rewrite Hallowed. clearbody site. split.
    - intros [H | (entry & Hin & Hm)]; [discriminate H |].
      destruct site as [d |]; cbn [orElse] in Hm.
      2:{ destruct Hin as [<- | [<- | []]]; discriminate Hm. }
      destruct Hin as [<- | [<- | []]]; unfold wildcardMatch in Hm; cbn in Hm;
        rewrite Hm; auto.
    - intros [-> | ->]; right.
      + exists "localhost". split; [left; reflexivity | reflexivity].
      + exists "cajuinasaogeraldo.com.br". split; [right; left; reflexivity | reflexivity]. }
  rewrite <- Hrej.
  destruct (domainRejected (ALLOWED_DOMAINS (Env.forHandlers num env)) site) eqn:Hd.
  - unfold site in Hd. rewrite (handleAuth_rejected _ _ rnd p Hq Hp Hd).
    destruct (supported_cases p Hp) as [-> | [-> | ->]]; split; intros H; discriminate H.
  - unfold site in Hd. rewrite (handleAuth_proceeds rnd _ _ _ Hq Hp Hd).
    split; reflexivity.
Qed.

(** A configuration with Bitbucket's credentials alone passes the
    schema, and under it no request is ever redirected: whenever neither
    GitHub nor GitLab has both credentials, every response of
    [handleAuth] is a page, with status 200. *)
Theorem no_redirect_without_github_or_gitlab (vars : Env.ProcessEnv)
    (env : Env.EnvType num) (rnd : N) (request : Request) :
  Env.parse num Number port3000 vars = Some env ->
  truthyStr (Env.var_GITHUB_CLIENT_ID vars)
    && truthyStr (Env.var_GITHUB_CLIENT_SECRET vars) = false ->
  truthyStr (Env.var_GITLAB_CLIENT_ID vars)
    && truthyStr (Env.var_GITLAB_CLIENT_SECRET vars) = false ->
  truthyStr (Env.var_BITBUCKET_CLIENT_ID vars)
    && truthyStr (Env.var_BITBUCKET_CLIENT_SECRET vars) = true
  /\ statusOf (handleAuth rnd request (Env.forHandlers num env)) = Some 200.
Proof.
  intros Hparse Hgh Hgl.
  destruct (parse_fields vars env Hparse) as (Href & _ & Ha & Hb & Hc & Hd & _).
  split.
  - unfold Env.refinement in Href. cbv zeta in Href.
    pose proof Hparse as Hp2. unfold Env.parse in Hp2.
    destruct (Env.zEnumDefault _ _ (Env.var_NODE_ENV vars)); [| discriminate].
    destruct (Env.zCoerceNumberDefault _ _ _ _); [| discriminate].
    destruct (Env.zEnumDefault _ _ (Env.var_LOG_LEVEL vars)); [| discriminate].
    cbv zeta in Hp2. destruct (Env.refinement num _); [| discriminate].
    injection Hp2 as <-. cbn in Href. rewrite Hgh, Hgl in Href. exact Href.
  - destruct (handleAuth_cases rnd request (Env.forHandlers num env))
      as [(p & location & Hp & _ & _ & Hcred & _) | (_ & o & Ho)].
    + exfalso. destruct Hp as [-> | ->]; cbn in Hcred.
      * rewrite Ha, Hb, Hgh in Hcred. discriminate Hcred.
      * rewrite Hc, Hd, Hgl in Hcred. discriminate Hcred.
    + rewrite Ho. reflexivity.
Qed.

End ValidatedEnv.

Lemma parse_accepts_witness :
  Env.parse N Env.sampleNumber 3000%N Env.sampleVars <> None.
Proof.
  apply (proj2 (parse_accepts N Env.sampleNumber 3000%N Env.sampleVars)).
  repeat split; auto.
Defined.

Lemma default_allow_list_witness :
  Env.parse N Env.sampleNumber 3000%N Env.sampleVars = Some Env.sampleEnv
  /\ shows (errorCodeText "UNSUPPORTED_DOMAIN")
       (handleAuth Sample.rnd (Sample.authRequest "github" "localhost")
          (Env.forHandlers N Env.sampleEnv)) = false.
Proof.
  split; [reflexivity |].
  apply (proj2 (default_allow_list N Env.sampleNumber 3000%N Env.sampleVars Env.sampleEnv
                  Sample.rnd (Sample.authRequest "github" "localhost") "github"
                  eq_refl eq_refl eq_refl eq_refl)).
  left. reflexivity.
Defined.

Lemma no_redirect_without_github_or_gitlab_witness :
  Env.parse N Env.sampleNumber 3000%N Env.bitbucketOnlyVars = Some Env.bitbucketOnlyEnv
  /\ statusOf (handleAuth Sample.rnd (Sample.authRequest "bitbucket" "localhost")
                 (Env.forHandlers N Env.bitbucketOnlyEnv)) = Some 200.
Proof.
  split; [reflexivity |].
  apply (no_redirect_without_github_or_gitlab N Env.sampleNumber 3000%N
           Env.bitbucketOnlyVars Env.bitbucketOnlyEnv Sample.rnd
           (Sample.authRequest "bitbucket" "localhost") eq_refl eq_refl eq_refl).
Defined.
